(** * pg_intercept_server_logs: a shallow embedding and its properties

    The development follows [pg_intercept_server_logs.c]: the severity
    comparison [is_log_level_output], the label function
    [intercept_log_severity], the tab escaping [append_with_tabs], the
    block builder and the two destinations of
    [prepare_and_emit_intercept_log_message], and the hook
    [intercept_log] with its static reentrancy flag.

    C [int]s are integers of [Z] (no operation of the module can overflow:
    they are only compared, divided by 1000 or printed).  A C string is a
    [string]; the terminating NUL is the end of the Rocq string.  A nullable
    [char *] is an [option string]. *)

From Stdlib Require Import ZArith List Bool Lia Ascii String.
From Stdlib Require Import Decimal DecimalString Sorted.
Import ListNotations.

Open Scope string_scope.
Open Scope Z_scope.

(** ** Severity levels

    The numeric values are those of the host's [utils/elog.h]; the module
    itself defines only [LOG_LEVEL_NONE]. *)
Module Elevel.

Definition DEBUG5 : Z := 10.
Definition DEBUG4 : Z := 11.
Definition DEBUG3 : Z := 12.
Definition DEBUG2 : Z := 13.
Definition DEBUG1 : Z := 14.
Definition LOG : Z := 15.
Definition LOG_SERVER_ONLY : Z := 16.
Definition INFO : Z := 17.
Definition NOTICE : Z := 18.
Definition WARNING : Z := 19.
Definition WARNING_CLIENT_ONLY : Z := 20.
Definition ERROR : Z := 21.
Definition FATAL : Z := 22.
Definition PANIC : Z := 23.

(** [#define LOG_LEVEL_NONE 255] *)
Definition LOG_LEVEL_NONE : Z := 255.

End Elevel.
Import Elevel.

(** [is_log_level_output -- is elevel logically >= log_min_level?]
    The four branches of the C function, in order; the fall-through of the
    first and third branch reaches the final [return false]. *)
Definition is_log_level_output (elevel log_min_level : Z) : bool :=
  if (elevel =? LOG) || (elevel =? LOG_SERVER_ONLY) then
    if (log_min_level =? LOG) || (log_min_level <=? ERROR) then true
    else false
  else if elevel =? WARNING_CLIENT_ONLY then
    false
  else if log_min_level =? LOG then
    if elevel >=? FATAL then true else false
  else if elevel >=? log_min_level then true
  else false.

(** [check_intercept_log_level]: the check hook of the [log_level] setting,
    given the host's [log_min_messages]. *)
Definition check_intercept_log_level (newval log_min_messages : Z) : bool :=
  if newval =? LOG_LEVEL_NONE then true
  else if negb (is_log_level_output newval log_min_messages) then false
  else true.

(** An entry of a [config_enum_entry] table: name, value, hidden. *)
Record config_enum_entry : Type := mk_entry {
  entry_name : string;
  entry_val : Z;
  entry_hidden : bool
}.

(** The table of the values the [log_level] setting accepts (without the
    terminating [{NULL, 0, false}]). *)
Definition log_level_options : list config_enum_entry :=
  [ mk_entry "debug5" DEBUG5 false;
    mk_entry "debug4" DEBUG4 false;
    mk_entry "debug3" DEBUG3 false;
    mk_entry "debug2" DEBUG2 false;
    mk_entry "debug1" DEBUG1 false;
    mk_entry "debug" DEBUG2 true;
    mk_entry "info" INFO false;
    mk_entry "notice" NOTICE false;
    mk_entry "warning" WARNING false;
    mk_entry "error" ERROR false;
    mk_entry "log" LOG false;
    mk_entry "fatal" FATAL false;
    mk_entry "panic" PANIC false;
    mk_entry "none" LOG_LEVEL_NONE false ].

(** [intercept_log_severity]: the label of a level, one per debug level. *)
Definition intercept_log_severity (elevel : Z) : string :=
  if elevel =? DEBUG1 then "DEBUG1"
  else if elevel =? DEBUG2 then "DEBUG2"
  else if elevel =? DEBUG3 then "DEBUG3"
  else if elevel =? DEBUG4 then "DEBUG4"
  else if elevel =? DEBUG5 then "DEBUG5"
  else if (elevel =? LOG) || (elevel =? LOG_SERVER_ONLY) then "LOG"
  else if elevel =? INFO then "INFO"
  else if elevel =? NOTICE then "NOTICE"
  else if (elevel =? WARNING) || (elevel =? WARNING_CLIENT_ONLY) then "WARNING"
  else if elevel =? ERROR then "ERROR"
  else if elevel =? FATAL then "FATAL"
  else if elevel =? PANIC then "PANIC"
  else "???".

(** ** Text

    The three characters the module writes by their code, and the two
    [printf] conversions it uses. *)
Definition newline : ascii := "010"%char.
Definition tab : ascii := "009"%char.
Definition dquote : ascii := "034"%char.

Definition LF : string := String newline EmptyString.

(** [%d] *)
Definition fmt_d (z : Z) : string := NilZero.string_of_int (Z.to_int z).

Fixpoint zeros (n : nat) : string :=
  match n with
  | O => EmptyString
  | S n' => String "0"%char (zeros n')
  end.

Definition zero_pad (width : nat) (digits : string) : string :=
  zeros (width - String.length digits) ++ digits.

(** [%03d]: at least three characters, the sign counted, zeros after it. *)
Definition fmt_03d (z : Z) : string :=
  if z <? 0 then String "-"%char (zero_pad 2 (fmt_d (- z)))
  else zero_pad 3 (fmt_d z).

(** [append_with_tabs]: the loop over the characters of [str]; every
    character is appended to the buffer, and a tab after a newline. *)
Fixpoint append_with_tabs (buf : string) (str : string) : string :=
  match str with
  | EmptyString => buf
  | String ch rest =>
      let buf := buf ++ String ch EmptyString in
      let buf := if Ascii.eqb ch newline
                 then buf ++ String tab EmptyString
                 else buf in
      append_with_tabs buf rest
  end.

(** ** The diagnostic record

    The fields of the host's [ErrorData] that the module reads, and
    [saved_errno], which [ereport] fills. *)
Record ErrorData : Type := mkErrorData {
  elevel : Z;
  sqlerrcode : Z;
  message : option string;
  detail : option string;
  detail_log : option string;
  hint : option string;
  context : option string;
  backtrace : option string;
  hide_ctx : bool;
  filename : option string;
  lineno : Z;
  funcname : option string;
  cursorpos : Z;
  internalpos : Z;
  internalquery : option string;
  saved_errno : Z
}.

(** ** The world of one backend process *)

(** What happens to the outside, in order: the system calls of the module,
    and the calls another module's hook may record. *)
Inductive Effect : Type :=
| CallOriginalHook (edata : ErrorData)
| SysOpen (path : string) (mode : Z) (fd : Z)
| SysWrite (fd : Z) (line : string) (len : Z) (rc : Z).

(** [in_intercept_log_hook] is the static flag of [intercept_log];
    [clock_reads] counts the calls of [gettimeofday]. *)
Record World : Type := mkWorld {
  in_intercept_log_hook : bool;
  errno : Z;
  clock_reads : nat;
  trace : list Effect
}.

Definition set_flag (b : bool) (w : World) : World :=
  mkWorld b (errno w) (clock_reads w) (trace w).

Definition set_errno (en : Z) (w : World) : World :=
  mkWorld (in_intercept_log_hook w) en (clock_reads w) (trace w).

Definition tick (w : World) : World :=
  mkWorld (in_intercept_log_hook w) (errno w) (S (clock_reads w)) (trace w).

Definition record_effect (ef : Effect) (w : World) : World :=
  mkWorld (in_intercept_log_hook w) (errno w) (clock_reads w)
          (trace w ++ [ef])%list.

(** What the module reads from the host.  [gettimeofday k] is the
    [(tv_sec, tv_usec)] of the [k]-th reading of the clock; [pg_strftime t]
    is the text of [t] in [log_timezone] under the module's format
    [%Y-%m-%d %H:%M:%S     %Z]. *)
Record Host : Type := mkHost {
  MyProcPid : Z;
  debug_query_string : option string;
  gettimeofday : nat -> Z * Z;
  pg_strftime : Z -> string;
  unpack_sql_state : Z -> string;
  strerror : Z -> string;
  errcode_for_file_access : Z -> Z;
  pg_file_create_mode : Z
}.

(** The answer of a system call: its return value and, when it sets
    [errno], the new value. *)
Record reply : Type := mkReply {
  ret_val : Z;
  new_errno : option Z
}.

(** The operating system, as the answers of [open] and [write] given what
    the process has done so far. *)
Record OS : Type := mkOS {
  sys_open : list Effect -> string -> Z -> reply;
  sys_write : list Effect -> Z -> string -> Z -> reply
}.

(** ** Control: state and non-local exit

    [ereport(ERROR, ...)] does not return to its caller: the host's
    [elog.h] states that for [elevel >= ERROR] the call will not return,
    control leaves by [longjmp] to the host's handler; [write_file] relies on
    it when it goes on to [write] after the report of a failed [open].  A
    computation therefore either returns a value or leaves with the raised
    record; what follows a raise in sequence is skipped. *)
Inductive outcome (A : Type) : Type :=
| Returned (a : A)
| Raised (edata : ErrorData).

Arguments Returned {A} a.
Arguments Raised {A} edata.

Definition M (A : Type) : Type := World -> outcome A * World.

Definition ret {A : Type} (a : A) : M A := fun w => (Returned a, w).

Definition bind {A B : Type} (m : M A) (k : A -> M B) : M B :=
  fun w =>
    match m w with
    | (Returned a, w') => k a w'
    | (Raised edata, w') => (Raised edata, w')
    end.

Declare Scope intercept_scope.
Delimit Scope intercept_scope with intercept.
Notation "x <- c ;; k" := (bind c (fun x => k))
  (at level 100, c at next level, right associativity) : intercept_scope.
Notation "c ;;; k" := (bind c (fun _ => k))
  (at level 100, right associativity) : intercept_scope.
Open Scope intercept_scope.

Definition get_flag : M bool := fun w => (Returned (in_intercept_log_hook w), w).
Definition put_flag (b : bool) : M unit := fun w => (Returned tt, set_flag b w).
Definition get_errno : M Z := fun w => (Returned (errno w), w).
Definition put_errno (en : Z) : M unit := fun w => (Returned tt, set_errno en w).

(** The two settings of the module and the hook it found installed when it
    was loaded: [None] for NULL, otherwise the function of another module,
    about which nothing is known: it may do anything to the world and may
    not return. *)
Record Config : Type := mkConfig {
  log_level : Z;
  log_directory : string;
  original_emit_log_hook : option (ErrorData -> M unit)
}.

(** ** Calls into the operating system and the host *)

Definition apply_errno (r : reply) (w : World) : World :=
  match new_errno r with
  | Some en => set_errno en w
  | None => w
  end.

(** [open(path, O_WRONLY | O_CREAT | O_APPEND, mode)] *)
Definition call_open (os : OS) (path : string) (mode : Z) : M Z :=
  fun w =>
    let r := sys_open os (trace w) path mode in
    (Returned (ret_val r),
     record_effect (SysOpen path mode (ret_val r)) (apply_errno r w)).

(** [write(fd, line, len)] *)
Definition call_write (os : OS) (fd : Z) (line : string) (len : Z) : M Z :=
  fun w =>
    let r := sys_write os (trace w) fd line len in
    (Returned (ret_val r),
     record_effect (SysWrite fd line len (ret_val r)) (apply_errno r w)).

Definition call_gettimeofday (h : Host) : M (Z * Z) :=
  fun w => (Returned (gettimeofday h (clock_reads w)), tick w).

Definition quoted (s : string) : string :=
  String dquote EmptyString ++ s ++ String dquote EmptyString.

(** The record of
    [ereport(ERROR, (errcode_for_file_access(), errmsg(what "%s": %m, fullpath)))]
    raised in [write_file] at line [at_line] with the given [errno]; [%m] is
    the text of [errno]. *)
Definition file_access_error (h : Host) (at_line : Z) (what fullpath : string)
    (en : Z) : ErrorData :=
  {| elevel := ERROR;
     sqlerrcode := errcode_for_file_access h en;
     message := Some (what ++ quoted fullpath ++ ": " ++ strerror h en);
     detail := None;
     detail_log := None;
     hint := None;
     context := None;
     backtrace := None;
     hide_ctx := false;
     filename := Some "pg_intercept_server_logs.c";
     lineno := at_line;
     funcname := Some "write_file";
     cursorpos := 0;
     internalpos := 0;
     internalquery := None;
     saved_errno := en |}.

Definition ereport_file_access {A : Type} (h : Host) (at_line : Z)
    (what fullpath : string) : M A :=
  fun w => (Raised (file_access_error h at_line what fullpath (errno w)), w).

(** ** The prefix of a line *)

Definition FORMATTED_TS_LEN : Z := 128.

(** [memcpy(formatted_log_time + 19, msbuf, 4)] on a buffer that was zeroed
    and then holds [formatted]: a text shorter than 19 characters still ends
    at its own NUL; otherwise the four characters replace positions 19 to 22
    and the text goes on from position 23. *)
Definition paste_milliseconds (formatted msbuf : string) : string :=
  if (String.length formatted <? 19)%nat then formatted
  else substring 0 19 formatted ++ substring 0 4 msbuf ++
       substring 23 (String.length formatted - 23) formatted.

(** The body of [get_formatted_intercept_log_time] after the clock is read. *)
Definition format_timeval (h : Host) (saved_timeval : Z * Z) : string :=
  let stamp_time := fst saved_timeval in
  let formatted_log_time := pg_strftime h stamp_time in
  let msbuf := String "."%char (fmt_03d (Z.quot (snd saved_timeval) 1000)) in
  paste_milliseconds formatted_log_time msbuf.

Definition get_formatted_intercept_log_time (h : Host) : M string :=
  saved_timeval <- call_gettimeofday h ;;
  ret (format_timeval h saved_timeval).

(** [add_prefix]: the formatted time, then the process id in brackets. *)
Definition add_prefix (h : Host) (buf : string) : M string :=
  formatted_log_time <- get_formatted_intercept_log_time h ;;
  let buf := buf ++ formatted_log_time in
  ret (buf ++ " [" ++ fmt_d (MyProcPid h) ++ "] ").

(** ** Building the block

    [prepare_and_emit_intercept_log_message] up to the choice of the
    destination, one definition per conditional group of the source; the
    translation marker [_()] is the identity. *)

(** Lines 467 to 485: the severity, the SQLSTATE, the message and the
    position. *)
Definition emit_message (h : Host) (edata : ErrorData) (buf : string)
    : M string :=
  buf <- add_prefix h buf ;;
  let buf := buf ++ intercept_log_severity (elevel edata) ++ ":  " in
  let buf := if negb (sqlerrcode edata =? 0)
             then buf ++ unpack_sql_state h (sqlerrcode edata) ++ ":  "
             else buf in
  let buf := match message edata with
             | Some m => append_with_tabs buf m
             | None => append_with_tabs buf "missing error text"
             end in
  let buf := if cursorpos edata >? 0
             then buf ++ " at character " ++ fmt_d (cursorpos edata)
             else if internalpos edata >? 0
             then buf ++ " at character " ++ fmt_d (internalpos edata)
             else buf in
  ret (buf ++ LF).

(** The body shared by the DETAIL, HINT, QUERY, CONTEXT, BACKTRACE and
    STATEMENT groups: prefix, label, escaped text, line end. *)
Definition emit_field (h : Host) (label text : string) (buf : string)
    : M string :=
  buf <- add_prefix h buf ;;
  let buf := buf ++ label in
  let buf := append_with_tabs buf text in
  ret (buf ++ LF).

(** Lines 487 to 500. *)
Definition emit_detail (h : Host) (edata : ErrorData) (buf : string)
    : M string :=
  match detail_log edata with
  | Some dl => emit_field h "DETAIL:  " dl buf
  | None =>
      match detail edata with
      | Some d => emit_field h "DETAIL:  " d buf
      | None => ret buf
      end
  end.

(** Lines 502 to 508. *)
Definition emit_hint (h : Host) (edata : ErrorData) (buf : string)
    : M string :=
  match hint edata with
  | Some t => emit_field h "HINT:  " t buf
  | None => ret buf
  end.

(** Lines 510 to 516. *)
Definition emit_internalquery (h : Host) (edata : ErrorData) (buf : string)
    : M string :=
  match internalquery edata with
  | Some t => emit_field h "QUERY:  " t buf
  | None => ret buf
  end.

(** Lines 518 to 524. *)
Definition emit_context (h : Host) (edata : ErrorData) (buf : string)
    : M string :=
  match context edata with
  | Some t =>
      if negb (hide_ctx edata) then emit_field h "CONTEXT:  " t buf
      else ret buf
  | None => ret buf
  end.

(** Lines 526 to 539: [funcname && filename], else [filename]. *)
Definition emit_location (h : Host) (edata : ErrorData) (buf : string)
    : M string :=
  match funcname edata, filename edata with
  | Some fn, Some file =>
      buf <- add_prefix h buf ;;
      ret (buf ++ "LOCATION:  " ++ fn ++ ", " ++ file ++ ":" ++
           fmt_d (lineno edata) ++ LF)
  | _, Some file =>
      buf <- add_prefix h buf ;;
      ret (buf ++ "LOCATION:  " ++ file ++ ":" ++ fmt_d (lineno edata) ++ LF)
  | _, None => ret buf
  end.

(** Lines 541 to 547. *)
Definition emit_backtrace (h : Host) (edata : ErrorData) (buf : string)
    : M string :=
  match backtrace edata with
  | Some t => emit_field h "BACKTRACE:  " t buf
  | None => ret buf
  end.

(** Lines 554 to 560. *)
Definition emit_statement (h : Host) (buf : string) : M string :=
  match debug_query_string h with
  | Some t => emit_field h "STATEMENT:  " t buf
  | None => ret buf
  end.

(** Lines 463 to 560: the buffer starts empty and goes through the groups
    in the order of the source. *)
Definition build_block (h : Host) (edata : ErrorData) : M string :=
  let buf := EmptyString in
  buf <- emit_message h edata buf ;;
  buf <- emit_detail h edata buf ;;
  buf <- emit_hint h edata buf ;;
  buf <- emit_internalquery h edata buf ;;
  buf <- emit_context h edata buf ;;
  buf <- emit_location h edata buf ;;
  buf <- emit_backtrace h edata buf ;;
  emit_statement h buf.

(** ** Destinations *)

Definition STDERR_FILENO : Z := 2.
Definition MAXPGPATH : Z := 1024.
Definition ENOSPC : Z := 28.

(** [write_console]: the result of [write] is dropped. *)
Definition write_console (os : OS) (line : string) (len : Z) : M unit :=
  rc <- call_write os STDERR_FILENO line len ;;
  ret tt.

(** [snprintf(fullpath, sizeof(fullpath), "%s/%s.log", ...)] into
    [char fullpath[MAXPGPATH * 2]]. *)
Definition fullpath_of (log_directory : string) (lvl : Z) : string :=
  substring 0 (Z.to_nat (MAXPGPATH * 2 - 1))
    (log_directory ++ "/" ++ intercept_log_severity lvl ++ ".log").

(** [write_file]: both reports leave the function. *)
Definition write_file (cfg : Config) (h : Host) (os : OS)
    (line : string) (len : Z) (lvl : Z) : M unit :=
  let fullpath := fullpath_of (log_directory cfg) lvl in
  fd <- call_open os fullpath (pg_file_create_mode h) ;;
  (if fd <? 0
   then ereport_file_access h 439 "could not open intercept log file " fullpath
   else ret tt) ;;;
  rc <- call_write os fd line len ;;
  if negb (rc =? len) then
    en <- get_errno ;;
    (if en =? 0 then put_errno ENOSPC else ret tt) ;;;
    ereport_file_access h 450 "could not write intercept log file " fullpath
  else ret tt.

(** [prepare_and_emit_intercept_log_message]; [buf.len] is the length of
    the buffer. *)
Definition prepare_and_emit_intercept_log_message (cfg : Config) (h : Host)
    (os : OS) (edata : ErrorData) : M unit :=
  buf <- build_block h edata ;;
  let len := Z.of_nat (String.length buf) in
  if String.eqb (log_directory cfg) EmptyString
  then write_console os buf len
  else write_file cfg h os buf len (elevel edata).

(** ** The hook *)

(** [if (original_emit_log_hook) original_emit_log_hook(edata);] *)
Definition call_original_emit_log_hook (cfg : Config) (edata : ErrorData)
    : M unit :=
  match original_emit_log_hook cfg with
  | Some hook => hook edata
  | None => ret tt
  end.

(** [intercept_log]: the original hook first, then the flag, then the
    level, then the work between setting and clearing the flag. *)
Definition intercept_log (cfg : Config) (h : Host) (os : OS)
    (edata : ErrorData) : M unit :=
  call_original_emit_log_hook cfg edata ;;;
  in_hook <- get_flag ;;
  if in_hook then ret tt
  else if (log_level cfg =? LOG_LEVEL_NONE) ||
          negb (elevel edata =? log_level cfg) then ret tt
  else
    put_flag true ;;;
    prepare_and_emit_intercept_log_message cfg h os edata ;;;
    put_flag false.

(** ** The block as a sequence of sections

    The view of the specification: a block is an ordered sequence of
    sections, each rendered as a fresh prefix, its text and a line end.
    These definitions follow the words of the specification; the theorems
    below relate them to [build_block]. *)

(** Escaping, as specified: a tab is inserted after every newline and
    nothing else changes. *)
Fixpoint spec_escape (s : string) : string :=
  match s with
  | EmptyString => EmptyString
  | String ch rest =>
      if Ascii.eqb ch newline
      then String ch (String tab (spec_escape rest))
      else String ch (spec_escape rest)
  end.

(** The inverse reading: drop the one tab that follows a newline. *)
Fixpoint spec_unescape (s : string) : string :=
  match s with
  | EmptyString => EmptyString
  | String ch rest =>
      String ch
        (if Ascii.eqb ch newline
         then match rest with
              | EmptyString => EmptyString
              | String ch' rest' =>
                  if Ascii.eqb ch' tab then spec_unescape rest'
                  else spec_unescape rest
              end
         else spec_unescape rest)
  end.

Fixpoint count_newlines (s : string) : nat :=
  match s with
  | EmptyString => O
  | String ch rest =>
      if Ascii.eqb ch newline then S (count_newlines rest)
      else count_newlines rest
  end.

Inductive section_kind : Type :=
| SecMessage | SecDetail | SecHint | SecQuery | SecContext
| SecLocation | SecBacktrace | SecStatement.

Definition section_kind_eqb (a b : section_kind) : bool :=
  match a, b with
  | SecMessage, SecMessage | SecDetail, SecDetail | SecHint, SecHint
  | SecQuery, SecQuery | SecContext, SecContext
  | SecLocation, SecLocation | SecBacktrace, SecBacktrace
  | SecStatement, SecStatement => true
  | _, _ => false
  end.

(** A section: its kind and its text between the prefix and the line end. *)
Record section : Type := mkSection {
  sec_kind : section_kind;
  sec_text : string
}.

Definition of_kind (k : section_kind) (secs : list section) : list section :=
  filter (fun s => section_kind_eqb (sec_kind s) k) secs.

Definition field_section (k : section_kind) (label : string)
    (text : option string) : list section :=
  match text with
  | Some t => [mkSection k (label ++ spec_escape t)]
  | None => []
  end.

(** The suffix of the message: the cursor position if positive, else the
    internal position if positive, else nothing. *)
Definition position_suffix (cursor internal : Z) : string :=
  if 0 <? cursor then " at character " ++ fmt_d cursor
  else if 0 <? internal then " at character " ++ fmt_d internal
  else EmptyString.

Definition message_head (h : Host) (edata : ErrorData) : string :=
  intercept_log_severity (elevel edata) ++ ":  " ++
  (if sqlerrcode edata =? 0 then EmptyString
   else unpack_sql_state h (sqlerrcode edata) ++ ":  ").

Definition message_text (edata : ErrorData) : string :=
  match message edata with
  | Some m => m
  | None => "missing error text"
  end.

Definition message_section (h : Host) (edata : ErrorData) : section :=
  mkSection SecMessage
    (message_head h edata ++ spec_escape (message_text edata) ++
     position_suffix (cursorpos edata) (internalpos edata)).

Definition detail_sections (edata : ErrorData) : list section :=
  match detail_log edata with
  | Some dl => field_section SecDetail "DETAIL:  " (Some dl)
  | None => field_section SecDetail "DETAIL:  " (detail edata)
  end.

Definition context_sections (edata : ErrorData) : list section :=
  if hide_ctx edata then []
  else field_section SecContext "CONTEXT:  " (context edata).

(** The location as the code emits it: it needs the file name. *)
Definition location_sections (edata : ErrorData) : list section :=
  match filename edata with
  | None => []
  | Some file =>
      match funcname edata with
      | Some fn =>
          [mkSection SecLocation
             ("LOCATION:  " ++ fn ++ ", " ++ file ++ ":" ++
              fmt_d (lineno edata))]
      | None =>
          [mkSection SecLocation
             ("LOCATION:  " ++ file ++ ":" ++ fmt_d (lineno edata))]
      end
  end.

Definition sections (h : Host) (edata : ErrorData) : list section :=
  (message_section h edata ::
   detail_sections edata ++
   field_section SecHint "HINT:  " (hint edata) ++
   field_section SecQuery "QUERY:  " (internalquery edata) ++
   context_sections edata ++
   location_sections edata ++
   field_section SecBacktrace "BACKTRACE:  " (backtrace edata) ++
   field_section SecStatement "STATEMENT:  " (debug_query_string h))%list.

(** The prefix made from the [k]-th reading of the clock. *)
Definition prefix_at (h : Host) (k : nat) : string :=
  format_timeval h (gettimeofday h k) ++ " [" ++ fmt_d (MyProcPid h) ++ "] ".

Fixpoint render (h : Host) (k : nat) (secs : list section) : string :=
  match secs with
  | [] => EmptyString
  | s :: rest => prefix_at h k ++ sec_text s ++ LF ++ render h (S k) rest
  end.

Definition advance_clock (n : nat) (w : World) : World :=
  mkWorld (in_intercept_log_hook w) (errno w) (n + clock_reads w) (trace w).

(** What one group of the source does to the buffer and the clock, given
    the sections it stands for. *)
Definition emits (h : Host) (step : string -> M string)
    (secs : list section) : Prop :=
  forall buf w,
    step buf w =
    (Returned (buf ++ render h (clock_reads w) secs),
     advance_clock (List.length secs) w).

(** The gate, as specified: no processing when the flag is set, when the
    watched severity is the disabled sentinel, or when the severities
    differ. *)
Definition shouldProcess (edata : ErrorData) (cfg : Config)
    (reentrancyFlag : bool) : bool :=
  if reentrancyFlag then false
  else if log_level cfg =? LOG_LEVEL_NONE then false
  else if elevel edata =? log_level cfg then true
  else false.

(** The world the call of the original hook leaves, if there is one. *)
Definition after_original_hook (cfg : Config) (edata : ErrorData)
    (w : World) : World :=
  snd (call_original_emit_log_hook cfg edata w).


(** What the original hook alone does with an event. *)
Definition deliver_to_original (cfg : Config) (w : World)
    (edata : ErrorData) : World :=
  after_original_hook cfg edata w.

(** The work of the hook on an event that passes the gate, from the world
    [w0] the original hook left: the flag is set, the block is built and
    routed, and the flag is cleared when that returns. *)
Definition process (cfg : Config) (h : Host) (os : OS) (edata : ErrorData)
    (w0 : World) : outcome unit * World :=
  match prepare_and_emit_intercept_log_message cfg h os edata
          (set_flag true w0) with
  | (Returned _, w') => (Returned tt, set_flag false w')
  | (Raised raised, w') => (Raised raised, w')
  end.

(** The host hands the events of a list to the hook, one after the other;
    a raise of the hook ends the handling of that event only. *)
Definition deliver (cfg : Config) (h : Host) (os : OS) (w : World)
    (edata : ErrorData) : World :=
  snd (intercept_log cfg h os edata w).

(** ** A sample host, for the evaluations below *)
Module Sample.

Definition host : Host :=
  {| MyProcPid := 4242;
     debug_query_string := None;
     gettimeofday := fun k => (1666000000 + Z.of_nat k, 123456);
     pg_strftime := fun _ => "2022-10-17 09:46:40     UTC";
     unpack_sql_state := fun _ => "58030";
     strerror := fun en =>
       if en =? 28 then "No space left on device"
       else if en =? 2 then "No such file or directory"
       else "Unknown error";
     errcode_for_file_access := fun _ => 1;
     pg_file_create_mode := 384 |}.

(** An event with a message only. *)
Definition plain (lvl : Z) (msg : string) : ErrorData :=
  mkErrorData lvl 0 (Some msg) None None None None None false
              None 0 None 0 0 None 0.

Definition world0 : World := mkWorld false 0 0 [].

(** Every call succeeds and writes everything. *)
Definition os_ok : OS :=
  {| sys_open := fun _ _ _ => mkReply 7 None;
     sys_write := fun _ _ _ len => mkReply len None |}.

(** [open] fails with ENOENT. *)
Definition os_no_dir : OS :=
  {| sys_open := fun _ _ _ => mkReply (-1) (Some 2);
     sys_write := fun _ _ _ len => mkReply len None |}.

(** [write] writes three bytes and leaves [errno] alone. *)
Definition os_short : OS :=
  {| sys_open := fun _ _ _ => mkReply 7 None;
     sys_write := fun _ _ _ _ => mkReply 3 None |}.

(** The first [open] of the process fails with ENOENT, every later one
    succeeds. *)
Definition os_first_open_fails : OS :=
  {| sys_open := fun done _ _ =>
       match done with
       | [] => mkReply (-1) (Some 2)
       | _ :: _ => mkReply 7 None
       end;
     sys_write := fun _ _ _ len => mkReply len None |}.

Definition to_console (lvl : Z) : Config := mkConfig lvl EmptyString None.
Definition to_dir (lvl : Z) : Config := mkConfig lvl "/var/log/icpt" None.

(** An original hook that notes its call and returns. *)
Definition noting_hook : ErrorData -> M unit :=
  fun edata w => (Returned tt, record_effect (CallOriginalHook edata) w).

(** An original hook that notes its call and leaves by a report of its
    own. *)
Definition raising_hook : ErrorData -> M unit :=
  fun edata w =>
    (Raised (plain ERROR "out of memory"),
     record_effect (CallOriginalHook edata) w).

End Sample.

(** ** The check hook of the directory setting *)

(** [S_ISDIR(m)]: the file type bits of [st_mode] are those of a directory
    ([S_IFMT] is 0170000 and [S_IFDIR] is 0040000, in octal). *)
Definition S_IFMT : Z := 61440.
Definition S_IFDIR : Z := 16384.
Definition S_ISDIR (st_mode : Z) : bool := Z.land st_mode S_IFMT =? S_IFDIR.

(** [check_intercept_log_directory]: [stat path] is the return value of
    [stat] and the [st_mode] it fills; the result is the verdict and the text
    given to [GUC_check_errdetail], if any.  [newval] is [None] for a NULL
    string. *)
Definition check_intercept_log_directory (stat : string -> Z * Z)
    (newval : option string) : bool * option string :=
  match newval with
  | None => (true, None)
  | Some EmptyString => (true, None)
  | Some dir =>
      if Z.of_nat (String.length dir) + 64 + 2 >=? MAXPGPATH
      then (false, Some "intercept log directory too long")
      else if negb (fst (stat dir) =? 0) || negb (S_ISDIR (snd (stat dir)))
      then (false, Some "specified intercept log directory does not exist")
      else (true, None)
  end.

(** ** Loading and unloading *)
Module Hooks.

(** A value of the host's [emit_log_hook] pointer: this module's
    [intercept_log] or the function of another module. *)
Inductive hook : Type :=
| intercept_log_hook
| other_hook (id : nat).

(** The host's [emit_log_hook] and the module's [original_emit_log_hook];
    [None] is NULL. *)
Record slots : Type := mkSlots {
  emit_log_hook : option hook;
  original_emit_log_hook : option hook
}.

(** Lines 145 and 146 of [_PG_init]. *)
Definition _PG_init (s : slots) : slots :=
  let s := mkSlots (emit_log_hook s) (emit_log_hook s) in
  mkSlots (Some intercept_log_hook) (original_emit_log_hook s).

(** [_PG_fini] *)
Definition _PG_fini (s : slots) : slots :=
  mkSlots (original_emit_log_hook s) (original_emit_log_hook s).

(** Another module installs its hook the usual way: it keeps the current
    pointer to call it and puts its own function in the slot. *)
Definition install_other (id : nat) (s : slots) : slots :=
  mkSlots (Some (other_hook id)) (original_emit_log_hook s).

End Hooks.

(** ** Views used by the theorems on the remaining code *)

(** The place of a level in the order [is_log_level_output] is documented to
    test: twice the level, with LOG and LOG_SERVER_ONLY put between ERROR
    and FATAL. *)
Definition logical_rank (lvl : Z) : Z :=
  if (lvl =? LOG) || (lvl =? LOG_SERVER_ONLY) then 2 * ERROR + 1
  else 2 * lvl.

(** The place of a kind of section in the order of the source. *)
Definition kind_index (k : section_kind) : nat :=
  match k with
  | SecMessage => 0
  | SecDetail => 1
  | SecHint => 2
  | SecQuery => 3
  | SecContext => 4
  | SecLocation => 5
  | SecBacktrace => 6
  | SecStatement => 7
  end.

(** The newlines of a text that are not followed by a tab: the ends of the
    logical lines. *)
Fixpoint bare_newlines (s : string) : nat :=
  match s with
  | EmptyString => O
  | String ch rest =>
      if Ascii.eqb ch newline then
        match rest with
        | EmptyString => 1%nat
        | String ch' _ =>
            if Ascii.eqb ch' tab then bare_newlines rest
            else S (bare_newlines rest)
        end
      else bare_newlines rest
  end.

Definition starts_with_tab (s : string) : bool :=
  match s with
  | EmptyString => false
  | String ch _ => Ascii.eqb ch tab
  end.

Definition no_newline_opt (o : option string) : Prop :=
  match o with
  | Some s => count_newlines s = O
  | None => True
  end.

(** The texts [intercept_log_severity] can return. *)
Definition severity_labels : list string :=
  [ "DEBUG1"; "DEBUG2"; "DEBUG3"; "DEBUG4"; "DEBUG5"; "LOG"; "INFO";
    "NOTICE"; "WARNING"; "ERROR"; "FATAL"; "PANIC"; "???" ].

(** A group of the source emits no section or one section of its kind. *)
Definition group_of (k : section_kind) (l : list section) : Prop :=
  l = [] \/ exists t, l = [mkSection k t].

(** A text that brings no end of a logical line to what follows it. *)
Definition no_line_end (s : string) : Prop :=
  forall b, bare_newlines (s ++ b) = bare_newlines b.

(** The values of the table of the setting. *)
Definition log_level_values : list Z := map entry_val log_level_options.

(** * Theorems *)

(** ** Properties of the severity comparison *)

Ltac level_cases :=
  repeat match goal with
         | |- context [ (?a =? ?b)%Z ] => destruct (Z.eqb_spec a b)
         | |- context [ (?a <=? ?b)%Z ] => destruct (Z.leb_spec a b)
         | |- context [ (?a >=? ?b)%Z ] =>
             rewrite (Z.geb_leb a b); destruct (Z.leb_spec b a)
         end.

Lemma is_log_level_output_min_LOG (S : Z) :
  is_log_level_output S LOG =
  (S =? LOG) || (S =? LOG_SERVER_ONLY) || (S >=? FATAL).
Proof.
  unfold is_log_level_output, LOG, LOG_SERVER_ONLY, WARNING_CLIENT_ONLY,
    ERROR, FATAL.
  level_cases; subst; simpl; try reflexivity; lia.
Qed.

(** C1, as stated, fails: with the minimum at LOG an event at LOG itself is
    output although LOG is numerically below FATAL. *)
Lemma C1_counterexample_LOG_at_LOG :
  is_log_level_output LOG LOG = true /\ ~ (LOG >= FATAL).
Proof.
  split; [reflexivity | unfold LOG, FATAL; lia].
Qed.

(** C1 (amended): with the minimum at LOG, an event of severity [S] is output
    if and only if [S] is log-class (LOG or LOG_SERVER_ONLY) or [S] is at or
    above FATAL. *)
Theorem C1_min_LOG_output_iff (S : Z) :
  is_log_level_output S LOG = true <->
  (S = LOG \/ S = LOG_SERVER_ONLY \/ S >= FATAL).
Proof.
  rewrite is_log_level_output_min_LOG.
  rewrite !orb_true_iff, !Z.eqb_eq, Z.geb_le. lia.
Qed.

(** C5: an event at LOG or LOG_SERVER_ONLY is output exactly when the minimum
    is LOG or at most ERROR, and an event at WARNING_CLIENT_ONLY is output for
    no minimum. *)
Theorem C5_log_class_and_client_only (M : Z) :
  (is_log_level_output LOG M = true <-> (M = LOG \/ M <= ERROR)) /\
  (is_log_level_output LOG_SERVER_ONLY M = true <-> (M = LOG \/ M <= ERROR)) /\
  is_log_level_output WARNING_CLIENT_ONLY M = false.
Proof.
  unfold is_log_level_output, LOG, LOG_SERVER_ONLY, WARNING_CLIENT_ONLY,
    ERROR, FATAL.
  simpl.
  repeat split; try reflexivity;
    level_cases; simpl; intros; try lia; try discriminate; auto.
Qed.

(** ** Strings *)

Lemma append_assoc (a b c : string) : (a ++ b) ++ c = a ++ (b ++ c).
Proof.
  induction a as [|ch a IH]; simpl; [reflexivity | now rewrite IH].
Qed.

Lemma append_empty_r (a : string) : a ++ EmptyString = a.
Proof.
  induction a as [|ch a IH]; simpl; [reflexivity | now rewrite IH].
Qed.

Lemma length_append (a b : string) :
  String.length (a ++ b) = (String.length a + String.length b)%nat.
Proof.
  induction a as [|ch a IH]; simpl; [reflexivity | now rewrite IH].
Qed.

(** ** Escaping *)

Lemma append_with_tabs_spec (str buf : string) :
  append_with_tabs buf str = buf ++ spec_escape str.
Proof.
  revert buf.
  induction str as [|ch rest IH]; intros buf; simpl.
  - now rewrite append_empty_r.
  - destruct (Ascii.eqb ch newline); rewrite IH, !append_assoc; reflexivity.
Qed.

Lemma spec_unescape_escape (s : string) : spec_unescape (spec_escape s) = s.
Proof.
  induction s as [|ch rest IH]; simpl; [reflexivity|].
  destruct (Ascii.eqb ch newline) eqn:E; simpl; rewrite E, IH; reflexivity.
Qed.

Lemma length_spec_escape (s : string) :
  String.length (spec_escape s) = (String.length s + count_newlines s)%nat.
Proof.
  induction s as [|ch rest IH]; simpl; [reflexivity|].
  destruct (Ascii.eqb ch newline); simpl; rewrite IH; lia.
Qed.

Lemma newline_then_tab (s : string) (n : nat) :
  String.get n (spec_escape s) = Some newline ->
  String.get (S n) (spec_escape s) = Some tab.
Proof.
  revert n.
  induction s as [|ch rest IH]; intros n; simpl; [discriminate|].
  destruct (Ascii.eqb_spec ch newline) as [->|Hne].
  - destruct n as [|[|n]]; simpl; intros Hn.
    + reflexivity.
    + discriminate.
    + apply (IH n). exact Hn.
  - destruct n as [|n]; simpl; intros Hn.
    + congruence.
    + apply (IH n). exact Hn.
Qed.

(** C8: [append_with_tabs] appends the text with one tab inserted after every
    newline: removing those tabs gives the text back, the result is longer by
    the number of newlines, and every newline of the result is immediately
    followed by a tab. *)
Theorem C8_append_with_tabs_inserts_tabs (buf str : string) :
  append_with_tabs buf str = buf ++ spec_escape str /\
  spec_unescape (spec_escape str) = str /\
  String.length (spec_escape str) =
    (String.length str + count_newlines str)%nat /\
  (forall n, String.get n (spec_escape str) = Some newline ->
             String.get (S n) (spec_escape str) = Some tab).
Proof.
  split; [apply append_with_tabs_spec|].
  split; [apply spec_unescape_escape|].
  split; [apply length_spec_escape|].
  intros n. apply newline_then_tab.
Qed.

(** ** The block builder against the section view *)

Section BlockBuilder.

Variable h : Host.

Lemma advance_clock_0 (w : World) : advance_clock 0 w = w.
Proof. destruct w; reflexivity. Qed.

Lemma advance_clock_tick (n : nat) (w : World) :
  advance_clock n (tick w) = advance_clock (S n) w.
Proof.
  unfold advance_clock, tick; simpl. f_equal. lia.
Qed.

Lemma advance_clock_add (n m : nat) (w : World) :
  advance_clock m (advance_clock n w) = advance_clock (n + m) w.
Proof.
  unfold advance_clock; simpl. f_equal. lia.
Qed.

Lemma add_prefix_eq (buf : string) (w : World) :
  add_prefix h buf w =
  (Returned (buf ++ prefix_at h (clock_reads w)), tick w).
Proof.
  unfold add_prefix, get_formatted_intercept_log_time, call_gettimeofday,
    bind, ret, prefix_at.
  now rewrite append_assoc.
Qed.

Lemma render_app (k : nat) (a b : list section) :
  render h k (a ++ b)%list = render h k a ++ render h (List.length a + k) b.
Proof.
  revert k.
  induction a as [|s a IH]; intros k; simpl; [reflexivity|].
  rewrite IH, !append_assoc.
  replace (List.length a + S k)%nat with (S (List.length a + k)) by lia.
  reflexivity.
Qed.

Lemma emits_nothing : emits h (fun buf => ret buf) [].
Proof.
  intros buf w. unfold ret; simpl.
  now rewrite append_empty_r, advance_clock_0.
Qed.

Lemma emit_field_emits (k : section_kind) (label text : string) :
  emits h (emit_field h label text) (field_section k label (Some text)).
Proof.
  intros buf w. unfold emit_field, bind.
  rewrite add_prefix_eq. unfold ret, field_section.
  cbn [render sec_text List.length].
  rewrite append_with_tabs_spec, !append_assoc.
  reflexivity.
Qed.

Lemma emit_message_emits (edata : ErrorData) :
  emits h (emit_message h edata) [message_section h edata].
Proof.
  intros buf w. unfold emit_message, bind.
  rewrite add_prefix_eq.
  unfold ret, message_section, message_head, message_text, position_suffix.
  cbn [render sec_text List.length].
  rewrite !Z.gtb_ltb.
  destruct (sqlerrcode edata =? 0), (message edata),
    (0 <? cursorpos edata), (0 <? internalpos edata);
    cbn [negb];
    rewrite !append_with_tabs_spec, !append_assoc, ?append_empty_r;
    reflexivity.
Qed.

Lemma emit_detail_emits (edata : ErrorData) :
  emits h (emit_detail h edata) (detail_sections edata).
Proof.
  unfold emit_detail, detail_sections.
  destruct (detail_log edata) as [dl|];
    [apply emit_field_emits|].
  destruct (detail edata) as [d|];
    [apply emit_field_emits | apply emits_nothing].
Qed.

Lemma emit_hint_emits (edata : ErrorData) :
  emits h (emit_hint h edata) (field_section SecHint "HINT:  " (hint edata)).
Proof.
  unfold emit_hint.
  destruct (hint edata); [apply emit_field_emits | apply emits_nothing].
Qed.

Lemma emit_internalquery_emits (edata : ErrorData) :
  emits h (emit_internalquery h edata)
        (field_section SecQuery "QUERY:  " (internalquery edata)).
Proof.
  unfold emit_internalquery.
  destruct (internalquery edata);
    [apply emit_field_emits | apply emits_nothing].
Qed.

Lemma emit_context_emits (edata : ErrorData) :
  emits h (emit_context h edata) (context_sections edata).
Proof.
  unfold emit_context, context_sections.
  destruct (context edata), (hide_ctx edata); simpl;
    solve [apply emit_field_emits | apply emits_nothing].
Qed.

Lemma emit_location_emits (edata : ErrorData) :
  emits h (emit_location h edata) (location_sections edata).
Proof.
  unfold emit_location, location_sections.
  destruct (funcname edata) as [fn|], (filename edata) as [file|];
    try apply emits_nothing;
    intros buf w; unfold bind; rewrite add_prefix_eq; unfold ret;
    cbn [render sec_text List.length];
    rewrite !append_assoc, ?append_empty_r; reflexivity.
Qed.

Lemma emit_backtrace_emits (edata : ErrorData) :
  emits h (emit_backtrace h edata)
        (field_section SecBacktrace "BACKTRACE:  " (backtrace edata)).
Proof.
  unfold emit_backtrace.
  destruct (backtrace edata);
    [apply emit_field_emits | apply emits_nothing].
Qed.

Lemma emit_statement_emits :
  emits h (emit_statement h)
        (field_section SecStatement "STATEMENT:  " (debug_query_string h)).
Proof.
  unfold emit_statement.
  destruct (debug_query_string h);
    [apply emit_field_emits | apply emits_nothing].
Qed.

(** Two groups in sequence emit the sections of both. *)
Lemma emits_seq (f g : string -> M string) (a b : list section) :
  emits h f a -> emits h g b ->
  emits h (fun buf => bind (f buf) g) (a ++ b)%list.
Proof.
  intros Hf Hg buf w. unfold bind.
  rewrite Hf, Hg. simpl.
  rewrite render_app, append_assoc, advance_clock_add, List.length_app.
  reflexivity.
Qed.

(** The block is the rendering of the sections of the record, and building
    it reads the clock once per section and does nothing else. *)
Lemma build_block_sections (edata : ErrorData) (w : World) :
  build_block h edata w =
  (Returned (render h (clock_reads w) (sections h edata)),
   advance_clock (List.length (sections h edata)) w).
Proof.
  pose proof
    (emits_seq _ _ _ _ (emit_message_emits edata)
    (emits_seq _ _ _ _ (emit_detail_emits edata)
    (emits_seq _ _ _ _ (emit_hint_emits edata)
    (emits_seq _ _ _ _ (emit_internalquery_emits edata)
    (emits_seq _ _ _ _ (emit_context_emits edata)
    (emits_seq _ _ _ _ (emit_location_emits edata)
    (emits_seq _ _ _ _ (emit_backtrace_emits edata)
                       emit_statement_emits)))))))
    as H.
  specialize (H EmptyString w).
  exact H.
Qed.

End BlockBuilder.

(** ** Selecting the sections of one kind *)

Lemma of_kind_app (k : section_kind) (a b : list section) :
  of_kind k (a ++ b)%list = (of_kind k a ++ of_kind k b)%list.
Proof. apply filter_app. Qed.

Lemma of_kind_field (k k' : section_kind) (label : string)
    (text : option string) :
  of_kind k (field_section k' label text) =
  if section_kind_eqb k' k then field_section k' label text else [].
Proof.
  destruct text as [t|]; unfold of_kind; simpl;
    destruct (section_kind_eqb k' k); reflexivity.
Qed.

Lemma of_kind_detail (k : section_kind) (edata : ErrorData) :
  of_kind k (detail_sections edata) =
  if section_kind_eqb SecDetail k then detail_sections edata else [].
Proof.
  unfold detail_sections.
  destruct (detail_log edata); apply of_kind_field.
Qed.

Lemma of_kind_context (k : section_kind) (edata : ErrorData) :
  of_kind k (context_sections edata) =
  if section_kind_eqb SecContext k then context_sections edata else [].
Proof.
  unfold context_sections.
  destruct (hide_ctx edata); [now destruct k | apply of_kind_field].
Qed.

Lemma of_kind_location (k : section_kind) (edata : ErrorData) :
  of_kind k (location_sections edata) =
  if section_kind_eqb SecLocation k then location_sections edata else [].
Proof.
  unfold location_sections, of_kind.
  destruct (filename edata), (funcname edata), k; reflexivity.
Qed.

(** The sections of a kind, read off the record: what [sections] keeps for
    each of the eight kinds. *)
Lemma of_kind_sections (h : Host) (edata : ErrorData) (k : section_kind) :
  of_kind k (sections h edata) =
  match k with
  | SecMessage => [message_section h edata]
  | SecDetail => detail_sections edata
  | SecHint => field_section SecHint "HINT:  " (hint edata)
  | SecQuery => field_section SecQuery "QUERY:  " (internalquery edata)
  | SecContext => context_sections edata
  | SecLocation => location_sections edata
  | SecBacktrace =>
      field_section SecBacktrace "BACKTRACE:  " (backtrace edata)
  | SecStatement =>
      field_section SecStatement "STATEMENT:  " (debug_query_string h)
  end.
Proof.
  unfold sections.
  change (message_section h edata :: ?l)%list
    with ([message_section h edata] ++ l)%list.
  rewrite !of_kind_app, !of_kind_field, of_kind_detail, of_kind_context,
    of_kind_location.
  destruct k; cbn [section_kind_eqb of_kind filter sec_kind message_section];
    rewrite ?app_nil_r; reflexivity.
Qed.

(** ** The sections of the claims *)

(** C3, as stated, fails: a record with a function name and no file name
    gets no location section at all; its block is the message line alone. *)
Lemma C3_counterexample_function_without_file :
  let edata :=
    mkErrorData ERROR 0 (Some "boom") None None None None None false
                None 42 (Some "exec_simple_query") 0 0 None 0 in
  funcname edata = Some "exec_simple_query" /\
  build_block Sample.host edata Sample.world0 =
    (Returned ("2022-10-17 09:46:40.123 UTC [4242] ERROR:  boom" ++ LF),
     tick Sample.world0) /\
  ~ (exists s, In s (sections Sample.host edata) /\ sec_kind s = SecLocation).
Proof.
  split; [reflexivity|]. split; [reflexivity|].
  intros [s [[<-|[]] Hk]]. discriminate Hk.
Qed.

(** C3 (amended): the block is the rendering of the sections of the record,
    and its location sections are: none when the file name is absent
    (whatever the function name); otherwise exactly one, of the form
    "function, file:line" when the function name is present and "file:line"
    when it is not. *)
Theorem C3_location_section (h : Host) (edata : ErrorData) (w : World) :
  build_block h edata w =
    (Returned (render h (clock_reads w) (sections h edata)),
     advance_clock (List.length (sections h edata)) w) /\
  of_kind SecLocation (sections h edata) =
    match filename edata with
    | None => []
    | Some file =>
        match funcname edata with
        | Some fn =>
            [mkSection SecLocation
               ("LOCATION:  " ++ fn ++ ", " ++ file ++ ":" ++
                fmt_d (lineno edata))]
        | None =>
            [mkSection SecLocation
               ("LOCATION:  " ++ file ++ ":" ++ fmt_d (lineno edata))]
        end
    end.
Proof.
  split; [apply build_block_sections|].
  rewrite of_kind_sections. reflexivity.
Qed.

(** C7: the block is the rendering of the sections of the record, and its
    DETAIL sections are: exactly one made from the detail-log text when that
    is present (whatever the detail text); exactly one made from the detail
    text when only that is present; none when both are absent.  So there is
    never more than one. *)
Theorem C7_one_detail_section_log_first (h : Host) (edata : ErrorData)
    (w : World) :
  build_block h edata w =
    (Returned (render h (clock_reads w) (sections h edata)),
     advance_clock (List.length (sections h edata)) w) /\
  of_kind SecDetail (sections h edata) =
    match detail_log edata, detail edata with
    | Some dl, _ => [mkSection SecDetail ("DETAIL:  " ++ spec_escape dl)]
    | None, Some d => [mkSection SecDetail ("DETAIL:  " ++ spec_escape d)]
    | None, None => []
    end /\
  (List.length (of_kind SecDetail (sections h edata)) <= 1)%nat.
Proof.
  split; [apply build_block_sections|].
  rewrite of_kind_sections. unfold detail_sections.
  destruct (detail_log edata), (detail edata); simpl; auto.
Qed.

Lemma position_suffix_cases (cursor internal : Z) :
  position_suffix cursor internal =
  if 0 <? cursor then " at character " ++ fmt_d cursor
  else if 0 <? internal then " at character " ++ fmt_d internal
  else EmptyString.
Proof. reflexivity. Qed.

(** C9: the block is the rendering of the sections of the record; the first
    of them, and the only message section, is the head (label and SQLSTATE),
    the escaped message and then the position suffix, which is
    " at character N" with N the cursor position when that is positive, else
    with N the internal position when that is positive, else empty.  With
    cursor position 5 and internal position 9 the suffix is
    " at character 5". *)
Theorem C9_position_suffix_cursor_first (h : Host) (edata : ErrorData)
    (w : World) :
  build_block h edata w =
    (Returned (render h (clock_reads w) (sections h edata)),
     advance_clock (List.length (sections h edata)) w) /\
  hd_error (sections h edata) =
    Some (mkSection SecMessage
            (message_head h edata ++ spec_escape (message_text edata) ++
             position_suffix (cursorpos edata) (internalpos edata))) /\
  of_kind SecMessage (sections h edata) =
    [mkSection SecMessage
       (message_head h edata ++ spec_escape (message_text edata) ++
        position_suffix (cursorpos edata) (internalpos edata))] /\
  (forall c i, 0 < c ->
     position_suffix c i = " at character " ++ fmt_d c) /\
  (forall c i, c <= 0 -> 0 < i ->
     position_suffix c i = " at character " ++ fmt_d i) /\
  (forall c i, c <= 0 -> i <= 0 -> position_suffix c i = EmptyString) /\
  position_suffix 5 9 = " at character 5".
Proof.
  split; [apply build_block_sections|].
  split; [reflexivity|].
  split; [now rewrite of_kind_sections|].
  repeat split; intros; rewrite ?position_suffix_cases;
    repeat match goal with
           | |- context [ (0 <? ?x)%Z ] => destruct (Z.ltb_spec 0 x)
           end; try reflexivity; lia.
Qed.

(** ** Destinations *)

Lemma trace_apply_errno (r : reply) (w : World) :
  trace (apply_errno r w) = trace w.
Proof. unfold apply_errno; destruct (new_errno r); reflexivity. Qed.

Lemma trace_record_effect (ef : Effect) (w : World) :
  trace (record_effect ef w) = (trace w ++ [ef])%list.
Proof. reflexivity. Qed.

Lemma flag_apply_errno (r : reply) (w : World) :
  in_intercept_log_hook (apply_errno r w) = in_intercept_log_hook w.
Proof. unfold apply_errno; destruct (new_errno r); reflexivity. Qed.

Lemma write_console_eq (os : OS) (line : string) (len : Z) (w : World) :
  write_console os line len w =
  let r := sys_write os (trace w) STDERR_FILENO line len in
  (Returned tt,
   record_effect (SysWrite STDERR_FILENO line len (ret_val r))
                 (apply_errno r w)).
Proof. reflexivity. Qed.

(** [write_file] in closed form: the answers of [open] and [write] decide
    between the two reports and the normal return. *)
Lemma write_file_eq (cfg : Config) (h : Host) (os : OS) (line : string)
    (len lvl : Z) (w : World) :
  let path := fullpath_of (log_directory cfg) lvl in
  let o := sys_open os (trace w) path (pg_file_create_mode h) in
  let w1 := record_effect (SysOpen path (pg_file_create_mode h) (ret_val o))
                          (apply_errno o w) in
  let wr := sys_write os (trace w1) (ret_val o) line len in
  let w2 := record_effect (SysWrite (ret_val o) line len (ret_val wr))
                          (apply_errno wr w1) in
  let w3 := if errno w2 =? 0 then set_errno ENOSPC w2 else w2 in
  write_file cfg h os line len lvl w =
  if ret_val o <? 0 then
    (Raised (file_access_error h 439 "could not open intercept log file "
                               path (errno w1)), w1)
  else if ret_val wr =? len then (Returned tt, w2)
  else
    (Raised (file_access_error h 450 "could not write intercept log file "
                               path (errno w3)), w3).
Proof.
  intros path o w1 wr w2 w3.
  unfold write_file, bind, call_open, call_write, ereport_file_access,
    get_errno, put_errno, ret.
  fold path. fold o. fold w1.
  destruct (ret_val o <? 0); [reflexivity|].
  fold wr. fold w2.
  destruct (ret_val wr =? len); cbn [negb]; [reflexivity|].
  unfold w3. destruct (errno w2 =? 0); reflexivity.
Qed.

(** C6: when [open] fails, or when [write] returns another count than the
    length asked for, [write_file] leaves with a raised record of level
    ERROR that carries the current [errno] as [saved_errno] and its text in
    the message.  After a failed [open] nothing is written and the [errno]
    is the one [open] left; after a short [write] it is the one [write]
    left, or ENOSPC when that is zero.  Neither call is repeated. *)
Theorem C6_file_failure_is_raised (cfg : Config) (h : Host) (os : OS)
    (line : string) (len lvl : Z) (w : World) :
  let path := fullpath_of (log_directory cfg) lvl in
  let mode := pg_file_create_mode h in
  let o := sys_open os (trace w) path mode in
  let w1 := record_effect (SysOpen path mode (ret_val o)) (apply_errno o w) in
  let wr := sys_write os (trace w1) (ret_val o) line len in
  let w2 := record_effect (SysWrite (ret_val o) line len (ret_val wr))
                          (apply_errno wr w1) in
  ret_val o < 0 \/ ret_val wr <> len ->
  exists edata w',
    write_file cfg h os line len lvl w = (Raised edata, w') /\
    elevel edata = ERROR /\
    saved_errno edata = errno w' /\
    (exists what,
       message edata =
       Some (what ++ quoted path ++ ": " ++ strerror h (errno w'))) /\
    (if ret_val o <? 0
     then errno w' = errno w1 /\
          trace w' = (trace w ++ [SysOpen path mode (ret_val o)])%list
     else errno w' = (if errno w2 =? 0 then ENOSPC else errno w2) /\
          trace w' = (trace w ++ [SysOpen path mode (ret_val o);
                                  SysWrite (ret_val o) line len
                                           (ret_val wr)])%list).
Proof.
  intros path mode o w1 wr w2 Hfail.
  pose proof (write_file_eq cfg h os line len lvl w) as E.
  cbv zeta in E. fold path mode in E. fold o in E. fold w1 in E.
  fold wr in E. fold w2 in E.
  destruct (Z.ltb_spec (ret_val o) 0) as [Hneg|Hpos].
  - eexists _, _. split; [exact E|].
    repeat split; try reflexivity.
    + eexists; reflexivity.
    + unfold w1. now rewrite trace_record_effect, trace_apply_errno.
  - destruct (Z.eqb_spec (ret_val wr) len) as [Heq|Hne]; [lia|].
    eexists _, _. split; [exact E|].
    repeat split; try reflexivity.
    + eexists; reflexivity.
    + destruct (errno w2 =? 0) eqn:E0; [reflexivity|].
      reflexivity.
    + assert (T2 : trace w2 =
                   (trace w ++ [SysOpen path mode (ret_val o);
                                SysWrite (ret_val o) line len
                                         (ret_val wr)])%list).
      { unfold w2, w1.
        repeat (rewrite trace_record_effect || rewrite trace_apply_errno).
        rewrite <- app_assoc. reflexivity. }
      destruct (errno w2 =? 0); exact T2.
Qed.

(** At a write of three bytes out of six that leaves [errno] at zero, the
    report carries ENOSPC. *)
Lemma C6_witness_short_write_ENOSPC :
  (7 < 0 \/ 3 <> 6) /\
  exists edata w',
    write_file (Sample.to_dir ERROR) Sample.host Sample.os_short
               "abcdef" 6 ERROR Sample.world0 = (Raised edata, w') /\
    elevel edata = ERROR /\
    saved_errno edata = ENOSPC.
Proof.
  assert (Hfail : 7 < 0 \/ 3 <> 6) by (right; discriminate).
  split; [exact Hfail|].
  destruct (C6_file_failure_is_raised (Sample.to_dir ERROR) Sample.host
              Sample.os_short "abcdef" 6 ERROR Sample.world0 Hfail)
    as [edata [w' [E [Hlvl [Herr [_ Hrest]]]]]].
  exists edata, w'.
  split; [exact E|]. split; [exact Hlvl|].
  rewrite Herr. cbn in Hrest. destruct Hrest as [Hen _]. exact Hen.
Defined.

(** ** The hook *)

(** The hook in closed form: the original hook first; when it returns, the
    gate decides between the work and the immediate return. *)
Lemma intercept_log_eq (cfg : Config) (h : Host) (os : OS)
    (edata : ErrorData) (w : World) :
  intercept_log cfg h os edata w =
  match call_original_emit_log_hook cfg edata w with
  | (Returned _, w0) =>
      if shouldProcess edata cfg (in_intercept_log_hook w0)
      then process cfg h os edata w0
      else (Returned tt, w0)
  | (Raised raised, w0) => (Raised raised, w0)
  end.
Proof.
  unfold intercept_log, bind at 1.
  destruct (call_original_emit_log_hook cfg edata w) as [[[]|raised] w0];
    [|reflexivity].
  unfold bind at 1, get_flag, shouldProcess.
  destruct (in_intercept_log_hook w0); [reflexivity|].
  destruct (log_level cfg =? LOG_LEVEL_NONE); [reflexivity|].
  destruct (elevel edata =? log_level cfg); [|reflexivity].
  cbn [negb orb].
  unfold process, bind, put_flag.
  destruct (prepare_and_emit_intercept_log_message cfg h os edata
              (set_flag true w0)) as [[[]|raised] w']; reflexivity.
Qed.

Lemma prepare_and_emit_eq (cfg : Config) (h : Host) (os : OS)
    (edata : ErrorData) (w : World) :
  prepare_and_emit_intercept_log_message cfg h os edata w =
  let block := render h (clock_reads w) (sections h edata) in
  let len := Z.of_nat (String.length block) in
  let wb := advance_clock (List.length (sections h edata)) w in
  if String.eqb (log_directory cfg) EmptyString
  then write_console os block len wb
  else write_file cfg h os block len (elevel edata) wb.
Proof.
  unfold prepare_and_emit_intercept_log_message, bind.
  rewrite build_block_sections.
  destruct (String.eqb (log_directory cfg) EmptyString); reflexivity.
Qed.

(** Building and routing a block keeps the flag and adds at least one
    system call to the trace. *)
Lemma prepare_and_emit_frame (cfg : Config) (h : Host) (os : OS)
    (edata : ErrorData) (w : World) :
  let w' := snd (prepare_and_emit_intercept_log_message cfg h os edata w) in
  in_intercept_log_hook w' = in_intercept_log_hook w /\
  exists ef efs, trace w' = (trace w ++ ef :: efs)%list.
Proof.
  unfold prepare_and_emit_intercept_log_message, bind.
  rewrite build_block_sections.
  set (buf := render h (clock_reads w) (sections h edata)).
  set (wb := advance_clock (List.length (sections h edata)) w).
  assert (Hf : in_intercept_log_hook wb = in_intercept_log_hook w)
    by reflexivity.
  assert (Ht : trace wb = trace w) by reflexivity.
  clearbody wb buf.
  destruct (String.eqb (log_directory cfg) EmptyString).
  - rewrite write_console_eq. cbv zeta. cbn [snd].
    split.
    + cbn [in_intercept_log_hook record_effect].
      now rewrite flag_apply_errno.
    + rewrite trace_record_effect, trace_apply_errno, Ht.
      do 2 eexists. reflexivity.
  - rewrite write_file_eq. cbv zeta.
    set (path := fullpath_of (log_directory cfg) (elevel edata)).
    set (len := Z.of_nat (String.length buf)).
    set (o := sys_open os (trace wb) path (pg_file_create_mode h)).
    set (w1 := record_effect _ (apply_errno o wb)).
    set (wr := sys_write os (trace w1) (ret_val o) buf len).
    set (w2 := record_effect _ (apply_errno wr w1)).
    assert (F1 : in_intercept_log_hook w1 = in_intercept_log_hook w).
    { unfold w1. cbn [in_intercept_log_hook record_effect].
      now rewrite flag_apply_errno. }
    assert (T1 : trace w1 = (trace w ++ [SysOpen path (pg_file_create_mode h)
                                                 (ret_val o)])%list).
    { unfold w1. now rewrite trace_record_effect, trace_apply_errno, Ht. }
    assert (F2 : in_intercept_log_hook w2 = in_intercept_log_hook w).
    { unfold w2. cbn [in_intercept_log_hook record_effect].
      now rewrite flag_apply_errno. }
    assert (T2 : exists ef efs, trace w2 = (trace w ++ ef :: efs)%list).
    { unfold w2. rewrite trace_record_effect, trace_apply_errno, T1.
      rewrite <- app_assoc. do 2 eexists. reflexivity. }
    destruct (ret_val o <? 0); cbn [snd].
    + split; [exact F1 | rewrite T1; do 2 eexists; reflexivity].
    + destruct (ret_val wr =? len); cbn [snd]; [split; assumption|].
      destruct (errno w2 =? 0); split; assumption.
Qed.

Lemma process_changes_world (cfg : Config) (h : Host) (os : OS)
    (edata : ErrorData) (w0 : World) :
  process cfg h os edata w0 <> (Returned tt, w0).
Proof.
  unfold process.
  pose proof (prepare_and_emit_frame cfg h os edata (set_flag true w0))
    as [_ [ef [efs Ht]]].
  destruct (prepare_and_emit_intercept_log_message cfg h os edata
              (set_flag true w0)) as [[[]|raised] w']; [|discriminate].
  cbn [snd] in Ht. intros E.
  injection E as E. apply (f_equal trace) in E.
  cbn [trace set_flag] in E, Ht. rewrite E in Ht.
  apply (f_equal (@List.length Effect)) in Ht.
  rewrite List.length_app in Ht. cbn [List.length] in Ht. lia.
Qed.

Lemma shouldProcess_false_iff (edata : ErrorData) (cfg : Config)
    (flag : bool) :
  shouldProcess edata cfg flag = false <->
  (flag = true \/ log_level cfg = LOG_LEVEL_NONE \/
   elevel edata <> log_level cfg).
Proof.
  unfold shouldProcess.
  destruct flag; [intuition|].
  destruct (Z.eqb_spec (log_level cfg) LOG_LEVEL_NONE); [intuition|].
  destruct (Z.eqb_spec (elevel edata) (log_level cfg));
    intuition discriminate.
Qed.

(** What the work on an event that passed the gate does to the outside,
    from the world [w0] the original hook left: the clock is read once per
    section of the record, and the rendered block goes in one [write] to
    the standard error stream when the directory setting is empty, and
    otherwise to the file of the level: one [open] of its path and, when
    that gives a descriptor, one [write] of the block on it. *)
Lemma process_outside (cfg : Config) (h : Host) (os : OS)
    (edata : ErrorData) (w0 : World) :
  let block := render h (clock_reads w0) (sections h edata) in
  let len := Z.of_nat (String.length block) in
  let path := fullpath_of (log_directory cfg) (elevel edata) in
  let mode := pg_file_create_mode h in
  let fd := ret_val (sys_open os (trace w0) path mode) in
  let routed :=
    if String.eqb (log_directory cfg) EmptyString
    then [SysWrite STDERR_FILENO block len
            (ret_val (sys_write os (trace w0) STDERR_FILENO block len))]
    else SysOpen path mode fd ::
         (if fd <? 0 then []
          else [SysWrite fd block len
                  (ret_val (sys_write os
                              (trace w0 ++ [SysOpen path mode fd])%list
                              fd block len))]) in
  trace (snd (process cfg h os edata w0)) = (trace w0 ++ routed)%list /\
  clock_reads (snd (process cfg h os edata w0)) =
    (List.length (sections h edata) + clock_reads w0)%nat.
Proof.
  intros block len path mode fd routed.
  unfold process. rewrite prepare_and_emit_eq. cbv zeta.
  cbn [clock_reads set_flag]. fold block. fold len.
  set (wb := advance_clock (List.length (sections h edata))
                           (set_flag true w0)).
  assert (Ht : trace wb = trace w0) by reflexivity.
  assert (Hc : clock_reads wb =
               (List.length (sections h edata) + clock_reads w0)%nat)
    by reflexivity.
  unfold routed. clearbody wb.
  destruct (String.eqb (log_directory cfg) EmptyString).
  - rewrite write_console_eq. cbv zeta. cbn [snd trace set_flag clock_reads].
    rewrite trace_record_effect, trace_apply_errno, Ht.
    split; [reflexivity|].
    cbn [clock_reads record_effect].
    unfold apply_errno. destruct (new_errno _); exact Hc.
  - rewrite write_file_eq. cbv zeta. fold path mode.
    rewrite Ht. fold fd.
    set (o := sys_open os (trace w0) path mode).
    set (w1 := record_effect (SysOpen path mode fd) (apply_errno o wb)).
    assert (T1 : trace w1 = (trace w0 ++ [SysOpen path mode fd])%list).
    { unfold w1. now rewrite trace_record_effect, trace_apply_errno, Ht. }
    assert (C1 : clock_reads w1 = clock_reads wb).
    { unfold w1, apply_errno. destruct (new_errno o); reflexivity. }
    rewrite T1.
    set (wr := sys_write os (trace w0 ++ [SysOpen path mode fd])%list
                         fd block len).
    set (w2 := record_effect (SysWrite fd block len (ret_val wr))
                             (apply_errno wr w1)).
    assert (T2 : trace w2 =
                 (trace w0 ++ [SysOpen path mode fd;
                               SysWrite fd block len (ret_val wr)])%list).
    { unfold w2. rewrite trace_record_effect, trace_apply_errno, T1.
      now rewrite <- app_assoc. }
    assert (C2 : clock_reads w2 = clock_reads wb).
    { unfold w2, apply_errno. destruct (new_errno wr); exact C1. }
    destruct (fd <? 0); cbn [snd].
    + split; [exact T1 | now rewrite C1].
    + destruct (ret_val wr =? len); cbn [snd trace clock_reads set_flag].
      * split; [exact T2 | now rewrite C2].
      * destruct (errno w2 =? 0); cbn [trace clock_reads set_errno];
          (split; [exact T2 | now rewrite C2]).
Qed.

(** C4: when the original hook has returned, leaving the world [w0], the
    gate is false exactly when the flag is set, or the watched level is the
    disabled sentinel, or the level of the event differs from the watched
    level; the hook returns at once with [w0] exactly when the gate is
    false; and when the gate is true the event is formatted and routed: the
    clock is read once per section, and the rendering of the sections of the
    record goes in one [write] to the standard error stream when the
    directory setting is empty, and otherwise to the file of the level (one
    [open] of its path and, when that gives a descriptor, one [write] of
    the block on it).  When the original hook does not return, the hook
    leaves with its report and does nothing else. *)
Theorem C4_gate_of_intercept_log (cfg : Config) (h : Host) (os : OS)
    (edata : ErrorData) (w : World) :
  match call_original_emit_log_hook cfg edata w with
  | (Raised raised, w0) =>
      intercept_log cfg h os edata w = (Raised raised, w0)
  | (Returned _, w0) =>
      let gate := shouldProcess edata cfg (in_intercept_log_hook w0) in
      let block := render h (clock_reads w0) (sections h edata) in
      let len := Z.of_nat (String.length block) in
      let path := fullpath_of (log_directory cfg) (elevel edata) in
      let mode := pg_file_create_mode h in
      let fd := ret_val (sys_open os (trace w0) path mode) in
      let routed :=
        if String.eqb (log_directory cfg) EmptyString
        then [SysWrite STDERR_FILENO block len
                (ret_val (sys_write os (trace w0) STDERR_FILENO block len))]
        else SysOpen path mode fd ::
             (if fd <? 0 then []
              else [SysWrite fd block len
                      (ret_val (sys_write os
                                  (trace w0 ++ [SysOpen path mode fd])%list
                                  fd block len))]) in
      (gate = false <->
       (in_intercept_log_hook w0 = true \/
        log_level cfg = LOG_LEVEL_NONE \/
        elevel edata <> log_level cfg)) /\
      (intercept_log cfg h os edata w = (Returned tt, w0) <->
       gate = false) /\
      trace (snd (intercept_log cfg h os edata w)) =
        (trace w0 ++ if gate then routed else [])%list /\
      clock_reads (snd (intercept_log cfg h os edata w)) =
        ((if gate then List.length (sections h edata) else O) +
         clock_reads w0)%nat
  end.
Proof.
  rewrite intercept_log_eq.
  destruct (call_original_emit_log_hook cfg edata w) as [[[]|raised] w0];
    [|reflexivity].
  cbv zeta.
  split; [apply shouldProcess_false_iff|].
  pose proof (process_outside cfg h os edata w0) as [T C].
  destruct (shouldProcess edata cfg (in_intercept_log_hook w0)).
  - split; [|split; [exact T | exact C]].
    split; [|discriminate].
    intros E. now apply process_changes_world in E.
  - split; [split; reflexivity|].
    cbn [snd]. split; [now rewrite app_nil_r | reflexivity].
Qed.

(** C10: when the watched level is a value of the table of the setting, an
    event at LOG_SERVER_ONLY or WARNING_CLIENT_ONLY makes the hook do what
    the original hook does and nothing more: no clock reading, no block, no
    system call of its own.  Neither level is a value of the table, although
    both have a label. *)
Theorem C10_server_only_and_client_only_never_match (cfg : Config)
    (h : Host) (os : OS) (edata : ErrorData) (w : World) :
  In (log_level cfg) (map entry_val log_level_options) ->
  elevel edata = LOG_SERVER_ONLY \/ elevel edata = WARNING_CLIENT_ONLY ->
  intercept_log cfg h os edata w =
    call_original_emit_log_hook cfg edata w /\
  ~ In LOG_SERVER_ONLY (map entry_val log_level_options) /\
  ~ In WARNING_CLIENT_ONLY (map entry_val log_level_options) /\
  intercept_log_severity LOG_SERVER_ONLY = "LOG" /\
  intercept_log_severity WARNING_CLIENT_ONLY = "WARNING".
Proof.
  intros Hin Hlvl.
  assert (Hno16 : ~ In LOG_SERVER_ONLY (map entry_val log_level_options)).
  { cbv. intuition discriminate. }
  assert (Hno20 : ~ In WARNING_CLIENT_ONLY (map entry_val log_level_options)).
  { cbv. intuition discriminate. }
  repeat split; try assumption.
  rewrite intercept_log_eq.
  destruct (call_original_emit_log_hook cfg edata w) as [[[]|raised] w0];
    [|reflexivity].
  replace (shouldProcess edata cfg (in_intercept_log_hook w0)) with false;
    [reflexivity|].
  symmetry. apply shouldProcess_false_iff.
  right. right. intros E. rewrite <- E in Hin.
  destruct Hlvl as [E'|E']; rewrite E' in Hin; contradiction.
Qed.

(** With the watched level at LOG, an event at LOG_SERVER_ONLY is dropped. *)
Lemma C10_witness_server_only_dropped :
  In LOG (map entry_val log_level_options) /\
  (LOG_SERVER_ONLY = LOG_SERVER_ONLY \/
   LOG_SERVER_ONLY = WARNING_CLIENT_ONLY) /\
  intercept_log (Sample.to_dir LOG) Sample.host Sample.os_ok
                (Sample.plain LOG_SERVER_ONLY "connection reset")
                Sample.world0 =
    (Returned tt, Sample.world0).
Proof.
  assert (Hin : In LOG (map entry_val log_level_options)).
  { do 10 right. left. reflexivity. }
  assert (Hlvl : LOG_SERVER_ONLY = LOG_SERVER_ONLY \/
                 LOG_SERVER_ONLY = WARNING_CLIENT_ONLY)
    by (left; reflexivity).
  split; [exact Hin|]. split; [exact Hlvl|].
  exact (proj1 (C10_server_only_and_client_only_never_match
                  (Sample.to_dir LOG) Sample.host Sample.os_ok
                  (Sample.plain LOG_SERVER_ONLY "connection reset")
                  Sample.world0 Hin Hlvl)).
Defined.

(** ** The reentrancy flag *)


(** When the original hook has returned and the hook then leaves by a
    raise, the flag is left set: the assignment after the call of
    [prepare_and_emit_intercept_log_message] is not reached. *)
Lemma intercept_log_raise_leaves_flag_set (cfg : Config) (h : Host)
    (os : OS) (edata raised : ErrorData) (w w0 w' : World) :
  call_original_emit_log_hook cfg edata w = (Returned tt, w0) ->
  intercept_log cfg h os edata w = (Raised raised, w') ->
  in_intercept_log_hook w' = true.
Proof.
  intros Hhook. rewrite intercept_log_eq, Hhook.
  destruct (shouldProcess edata cfg (in_intercept_log_hook w0));
    [|discriminate].
  unfold process.
  pose proof (prepare_and_emit_frame cfg h os edata (set_flag true w0))
    as [Hf _].
  destruct (prepare_and_emit_intercept_log_message cfg h os edata
              (set_flag true w0)) as [[[]|raised'] w1]; [discriminate|].
  intros E. injection E as _ <-. exact Hf.
Qed.

(** With the flag set after the original hook, the hook does what the
    original hook does and nothing more. *)
Lemma intercept_log_flag_set (cfg : Config) (h : Host) (os : OS)
    (edata : ErrorData) (w : World) :
  in_intercept_log_hook (after_original_hook cfg edata w) = true ->
  intercept_log cfg h os edata w = call_original_emit_log_hook cfg edata w.
Proof.
  unfold after_original_hook. rewrite intercept_log_eq.
  destruct (call_original_emit_log_hook cfg edata w) as [[[]|raised] w0];
    [|reflexivity].
  cbn [snd]. intros ->. reflexivity.
Qed.

(** Once set, the flag stays set over any further events when the original
    hook does not touch it, and the hook then adds nothing to what the
    original hook does with them. *)
Lemma flag_set_is_permanent (cfg : Config) (h : Host) (os : OS)
    (events : list ErrorData) (w : World) :
  (forall edata w,
     in_intercept_log_hook (after_original_hook cfg edata w) =
     in_intercept_log_hook w) ->
  in_intercept_log_hook w = true ->
  fold_left (deliver cfg h os) events w =
    fold_left (deliver_to_original cfg) events w /\
  in_intercept_log_hook (fold_left (deliver cfg h os) events w) = true.
Proof.
  intros Hkeep. revert w.
  induction events as [|edata events IH]; intros w Hflag; cbn [fold_left].
  - split; [reflexivity | exact Hflag].
  - assert (Hflag' : in_intercept_log_hook (after_original_hook cfg edata w)
                     = true) by now rewrite Hkeep.
    replace (deliver cfg h os w edata)
      with (deliver_to_original cfg w edata)
      by (unfold deliver, deliver_to_original, after_original_hook;
          now rewrite intercept_log_flag_set).
    apply IH. exact Hflag'.
Qed.

(** C2 on the code: with the watched level at ERROR and a directory in which
    the first [open] fails, the hook leaves by the raised report and the flag
    is still set.  The report itself, which is at the watched level, is then
    dropped; but so is the next matching event, although [open] would now
    succeed: with the flag cleared the same event is opened and written. *)
Theorem C2_flag_left_set_after_failed_open :
  let cfg := Sample.to_dir ERROR in
  let os := Sample.os_first_open_fails in
  let e1 := Sample.plain ERROR "disk full" in
  let path := "/var/log/icpt/ERROR.log" in
  let block := "2022-10-17 09:46:40.123 UTC [4242] ERROR:  disk full" ++ LF in
  exists e2 w1,
    intercept_log cfg Sample.host os e1 Sample.world0 = (Raised e2, w1) /\
    e2 = file_access_error Sample.host 439
           "could not open intercept log file " path 2 /\
    in_intercept_log_hook w1 = true /\
    trace w1 = [SysOpen path 384 (-1)] /\
    intercept_log cfg Sample.host os e2 w1 = (Returned tt, w1) /\
    intercept_log cfg Sample.host os e1 w1 = (Returned tt, w1) /\
    exists w2,
      intercept_log cfg Sample.host os e1 (set_flag false w1) =
        (Returned tt, w2) /\
      trace w2 = [SysOpen path 384 (-1); SysOpen path 384 7;
                  SysWrite 7 block 53 53].
Proof.
  cbv zeta. do 2 eexists.
  split; [vm_compute; reflexivity|].
  split; [reflexivity|].
  split; [reflexivity|].
  split; [reflexivity|].
  split; [vm_compute; reflexivity|].
  split; [vm_compute; reflexivity|].
  eexists. split; vm_compute; reflexivity.
Qed.

(** ** Scenarios *)

(** An ERROR with a message only: one line. *)
Example scenario_message_only :
  fst (build_block Sample.host (Sample.plain ERROR "disk full") Sample.world0)
  = Returned ("2022-10-17 09:46:40.123 UTC [4242] ERROR:  disk full" ++ LF).
Proof. reflexivity. Qed.

(** Detail and detail-log text both present: the detail-log text is used. *)
Example scenario_detail_log_wins :
  fst (build_block Sample.host
         (mkErrorData WARNING 0 (Some "slow query") (Some "for the client")
            (Some "for the log") None None None false None 0 None 0 0 None 0)
         Sample.world0)
  = Returned
      ("2022-10-17 09:46:40.123 UTC [4242] WARNING:  slow query" ++ LF ++
       "2022-10-17 09:46:40.123 UTC [4242] DETAIL:  for the log" ++ LF).
Proof. reflexivity. Qed.

(** Cursor position 5 and internal position 9: the cursor position is
    printed. *)
Example scenario_cursor_wins :
  fst (build_block Sample.host
         (mkErrorData ERROR 0 (Some "syntax error") None None None None None
            false None 0 None 5 9 None 0)
         Sample.world0)
  = Returned
      ("2022-10-17 09:46:40.123 UTC [4242] ERROR:  syntax error at character 5"
       ++ LF).
Proof. reflexivity. Qed.

(** An original hook that does not return: the hook leaves with its
    report before the flag is read; nothing is formatted or written and the
    flag is as it was. *)
Example scenario_original_hook_raises :
  intercept_log (mkConfig ERROR EmptyString (Some Sample.raising_hook))
    Sample.host Sample.os_ok (Sample.plain ERROR "disk full") Sample.world0
  = (Raised (Sample.plain ERROR "out of memory"),
     mkWorld false 0 0 [CallOriginalHook (Sample.plain ERROR "disk full")]).
Proof. reflexivity. Qed.

(** An original hook that returns is called before the block is written. *)
Example scenario_original_hook_first :
  snd (intercept_log (mkConfig ERROR EmptyString (Some Sample.noting_hook))
         Sample.host Sample.os_ok (Sample.plain ERROR "disk full")
         Sample.world0)
  = mkWorld false 0 1
      [CallOriginalHook (Sample.plain ERROR "disk full");
       SysWrite STDERR_FILENO
         ("2022-10-17 09:46:40.123 UTC [4242] ERROR:  disk full" ++ LF) 53 53].
Proof. reflexivity. Qed.

(** No directory: the block goes to the standard error stream. *)
Example scenario_console :
  snd (intercept_log (Sample.to_console ERROR) Sample.host Sample.os_ok
         (Sample.plain ERROR "disk full") Sample.world0)
  = mkWorld false 0 1
      [SysWrite STDERR_FILENO
         ("2022-10-17 09:46:40.123 UTC [4242] ERROR:  disk full" ++ LF) 53 53].
Proof. reflexivity. Qed.

(** * The remaining code *)

(** ** The order behind [is_log_level_output] *)

Lemma is_log_level_output_rank (lvl log_min_level : Z) :
  lvl <> WARNING_CLIENT_ONLY ->
  log_min_level <> LOG_SERVER_ONLY ->
  is_log_level_output lvl log_min_level =
  (logical_rank log_min_level <=? logical_rank lvl).
Proof.
  intros Hl Hm.
  unfold is_log_level_output, logical_rank, LOG, LOG_SERVER_ONLY,
    WARNING_CLIENT_ONLY, ERROR, FATAL in *.
  destruct (Z.eqb_spec lvl 15), (Z.eqb_spec lvl 16),
    (Z.eqb_spec lvl 20), (Z.eqb_spec log_min_level 15),
    (Z.eqb_spec log_min_level 16); subst; cbn [orb]; try lia;
    rewrite ?Z.geb_leb;
    repeat match goal with
           | |- context [ (?a <=? ?b)%Z ] => destruct (Z.leb_spec a b)
           end; try reflexivity; lia.
Qed.

(** X1: [is_log_level_output] is the comparison of the two levels in the
    order that puts LOG (and LOG_SERVER_ONLY) between ERROR and FATAL, for
    every event level but WARNING_CLIENT_ONLY and every minimum but
    LOG_SERVER_ONLY (which is no value of a minimum). *)
Theorem X1_output_is_the_logical_order (lvl log_min_level : Z) :
  lvl <> WARNING_CLIENT_ONLY ->
  log_min_level <> LOG_SERVER_ONLY ->
  is_log_level_output lvl log_min_level =
  (logical_rank log_min_level <=? logical_rank lvl).
Proof. apply is_log_level_output_rank. Qed.

Lemma X1_witness_LOG_above_ERROR :
  LOG <> WARNING_CLIENT_ONLY /\ ERROR <> LOG_SERVER_ONLY /\
  is_log_level_output LOG ERROR =
  (logical_rank ERROR <=? logical_rank LOG).
Proof.
  assert (H1 : LOG <> WARNING_CLIENT_ONLY) by discriminate.
  assert (H2 : ERROR <> LOG_SERVER_ONLY) by discriminate.
  split; [exact H1|]. split; [exact H2|].
  exact (X1_output_is_the_logical_order LOG ERROR H1 H2).
Defined.

(** X2: a value of the level setting that the check hook accepts under one
    server minimum is accepted under every minimum that is lower in the
    logical order (a more verbose server). *)
Theorem X2_check_level_monotone (newval m m' : Z) :
  m <> LOG_SERVER_ONLY -> m' <> LOG_SERVER_ONLY ->
  logical_rank m' <= logical_rank m ->
  check_intercept_log_level newval m = true ->
  check_intercept_log_level newval m' = true.
Proof.
  intros Hm Hm' Hle.
  unfold check_intercept_log_level.
  destruct (newval =? LOG_LEVEL_NONE); [reflexivity|].
  destruct (Z.eq_dec newval WARNING_CLIENT_ONLY) as [->|Hn].
  - unfold is_log_level_output. cbn. discriminate.
  - rewrite !is_log_level_output_rank by assumption.
    destruct (Z.leb_spec (logical_rank m) (logical_rank newval));
      [|discriminate].
    destruct (Z.leb_spec (logical_rank m') (logical_rank newval));
      [reflexivity | lia].
Qed.

Lemma X2_witness_ERROR_under_WARNING :
  (ERROR <> LOG_SERVER_ONLY /\ WARNING <> LOG_SERVER_ONLY /\
   logical_rank WARNING <= logical_rank ERROR /\
   check_intercept_log_level ERROR ERROR = true) /\
  check_intercept_log_level ERROR WARNING = true.
Proof.
  assert (H1 : ERROR <> LOG_SERVER_ONLY) by discriminate.
  assert (H2 : WARNING <> LOG_SERVER_ONLY) by discriminate.
  assert (H3 : logical_rank WARNING <= logical_rank ERROR)
    by (vm_compute; discriminate).
  assert (H4 : check_intercept_log_level ERROR ERROR = true) by reflexivity.
  split; [repeat split; assumption|].
  exact (X2_check_level_monotone ERROR ERROR WARNING H1 H2 H3 H4).
Defined.

(** ** Labels and paths *)

Lemma intercept_log_severity_cases (lvl : Z) :
  In (intercept_log_severity lvl) severity_labels.
Proof.
  unfold intercept_log_severity, severity_labels.
  repeat match goal with
         | |- context [ if ?c then _ else _ ] => destruct c
         end; cbn; tauto.
Qed.

Lemma length_intercept_log_severity (lvl : Z) :
  (String.length (intercept_log_severity lvl) <= 7)%nat.
Proof.
  pose proof (intercept_log_severity_cases lvl) as H.
  unfold severity_labels in H. cbn [In] in H.
  repeat (destruct H as [<-|H]; [cbn; lia|]). destruct H.
Qed.

Lemma substring_all (s : string) (n : nat) :
  (String.length s <= n)%nat -> substring 0 n s = s.
Proof.
  revert n.
  induction s as [|ch s IH]; intros n Hn.
  - destruct n; reflexivity.
  - destruct n as [|n]; cbn in Hn; [lia|].
    cbn. rewrite IH by lia. reflexivity.
Qed.

Lemma append_inj_l (a x y : string) : a ++ x = a ++ y -> x = y.
Proof.
  induction a as [|ch a IH]; cbn; intros E; [exact E|].
  injection E as E. auto.
Qed.

Lemma fullpath_of_fits (dir : string) (lvl : Z) :
  (String.length dir <= 2035)%nat ->
  fullpath_of dir lvl = dir ++ "/" ++ intercept_log_severity lvl ++ ".log".
Proof.
  intros Hlen. unfold fullpath_of.
  apply substring_all.
  pose proof (length_intercept_log_severity lvl).
  rewrite !length_append. cbn [String.length].
  change (Z.to_nat (MAXPGPATH * 2 - 1)) with 2047%nat. lia.
Qed.

Lemma check_intercept_log_directory_accepts (stat : string -> Z * Z)
    (dir : string) :
  fst (check_intercept_log_directory stat (Some dir)) = true ->
  dir = EmptyString \/
  ((String.length dir <= 957)%nat /\
   fst (stat dir) = 0 /\ S_ISDIR (snd (stat dir)) = true).
Proof.
  unfold check_intercept_log_directory.
  destruct dir as [|ch dir]; [now left|].
  set (d := String ch dir).
  rewrite Z.geb_leb.
  destruct (Z.leb_spec MAXPGPATH (Z.of_nat (String.length d) + 64 + 2));
    [discriminate|].
  destruct (Z.eqb_spec (fst (stat d)) 0); cbn [negb orb];
    [|discriminate].
  destruct (S_ISDIR (snd (stat d))); cbn [negb fst]; [|discriminate].
  intros _. right. unfold MAXPGPATH in *. repeat split; [lia|assumption].
Qed.

(** X3: a directory that the check hook accepts is empty, or is at most 957
    characters long and names something for which [stat] succeeds with the
    mode of a directory; and for such a directory the path built by
    [write_file] is never cut by [snprintf]: it is the directory, a slash,
    the label of the level and ".log". *)
Theorem X3_accepted_directory_gives_whole_path (stat : string -> Z * Z)
    (dir : string) (lvl : Z) :
  fst (check_intercept_log_directory stat (Some dir)) = true ->
  (dir = EmptyString \/
   ((String.length dir <= 957)%nat /\
    fst (stat dir) = 0 /\ S_ISDIR (snd (stat dir)) = true)) /\
  fullpath_of dir lvl = dir ++ "/" ++ intercept_log_severity lvl ++ ".log".
Proof.
  intros Hok.
  pose proof (check_intercept_log_directory_accepts stat dir Hok) as H.
  split; [exact H|].
  apply fullpath_of_fits.
  destruct H as [->|[Hlen _]]; [cbn; lia | lia].
Qed.

Lemma X3_witness_var_log :
  fst (check_intercept_log_directory (fun _ => (0, 16877))
         (Some "/var/log/icpt")) = true /\
  fullpath_of "/var/log/icpt" WARNING = "/var/log/icpt/WARNING.log".
Proof.
  assert (Hok : fst (check_intercept_log_directory (fun _ => (0, 16877))
                       (Some "/var/log/icpt")) = true) by reflexivity.
  split; [exact Hok|].
  exact (proj2 (X3_accepted_directory_gives_whole_path
                  (fun _ => (0, 16877)) "/var/log/icpt" WARNING Hok)).
Defined.

(** X4: the check hook of the directory never consults the file system for
    a NULL or empty value, which it accepts, nor for a value of 958
    characters or more, which it rejects as too long; any other value is
    rejected as not existing unless [stat] succeeds on a directory. *)
Theorem X4_check_directory_verdicts (stat : string -> Z * Z)
    (newval : option string) :
  check_intercept_log_directory stat newval =
  match newval with
  | None => (true, None)
  | Some dir =>
      if (String.length dir =? 0)%nat then (true, None)
      else if (958 <=? String.length dir)%nat
      then (false, Some "intercept log directory too long")
      else if (fst (stat dir) =? 0) && S_ISDIR (snd (stat dir))
      then (true, None)
      else (false, Some "specified intercept log directory does not exist")
  end.
Proof.
  destruct newval as [dir|]; [|reflexivity].
  destruct dir as [|ch dir]; [reflexivity|].
  unfold check_intercept_log_directory.
  set (d := String ch dir).
  replace (String.length d =? 0)%nat with false by reflexivity.
  rewrite Z.geb_leb. unfold MAXPGPATH.
  destruct (Z.leb_spec 1024 (Z.of_nat (String.length d) + 64 + 2)),
    (Nat.leb_spec 958 (String.length d)); try lia; [reflexivity|].
  destruct (fst (stat d) =? 0), (S_ISDIR (snd (stat d))); reflexivity.
Qed.

Lemma intercept_log_severity_inj_on_table (a b : Z) :
  In a log_level_values -> In b log_level_values ->
  intercept_log_severity a = intercept_log_severity b -> a = b.
Proof.
  unfold log_level_values. cbn [map log_level_options entry_val In].
  intros Ha Hb.
  repeat (destruct Ha as [<-|Ha]; [|]);
    try (destruct Ha);
    repeat (destruct Hb as [<-|Hb]; [|]);
    try (destruct Hb);
    cbn; intros E; try reflexivity; discriminate E.
Qed.

(** X5: the levels of the table of the setting have pairwise different
    labels, so under an accepted directory two different watched levels never
    write to the same file; and every level of the table but "none" has a
    proper label, not "???". *)
Theorem X5_one_file_per_watched_level (stat : string -> Z * Z)
    (dir : string) (a b : Z) :
  fst (check_intercept_log_directory stat (Some dir)) = true ->
  In a log_level_values -> In b log_level_values ->
  (fullpath_of dir a = fullpath_of dir b -> a = b) /\
  (a <> LOG_LEVEL_NONE -> intercept_log_severity a <> "???").
Proof.
  intros Hok Ha Hb. split.
  - assert (Hlen : (String.length dir <= 2035)%nat).
    { destruct (check_intercept_log_directory_accepts stat dir Hok)
        as [->|[Hlen _]]; [cbn; lia | lia]. }
    rewrite !fullpath_of_fits by exact Hlen.
    intros E. apply append_inj_l in E. apply append_inj_l in E.
    apply intercept_log_severity_inj_on_table; try assumption.
    revert E.
    pose proof (intercept_log_severity_cases a) as La.
    pose proof (intercept_log_severity_cases b) as Lb.
    unfold severity_labels in La, Lb. cbn [In] in La, Lb.
    repeat (destruct La as [<-|La]; [|]); try (destruct La);
      repeat (destruct Lb as [<-|Lb]; [|]); try (destruct Lb);
      cbn; intros E; try reflexivity; discriminate E.
  - intros Hne. revert Ha Hne.
    unfold log_level_values. cbn [map log_level_options entry_val In].
    intros Ha Hne.
    repeat (destruct Ha as [<-|Ha]; [cbn; try discriminate|]);
      try (destruct Ha); now elim Hne.
Qed.

Lemma X5_witness_ERROR_and_FATAL :
  (fst (check_intercept_log_directory (fun _ => (0, 16877))
          (Some "/var/log/icpt")) = true /\
   In ERROR log_level_values /\ In FATAL log_level_values) /\
  (fullpath_of "/var/log/icpt" ERROR = fullpath_of "/var/log/icpt" FATAL ->
   ERROR = FATAL).
Proof.
  assert (Hok : fst (check_intercept_log_directory (fun _ => (0, 16877))
                       (Some "/var/log/icpt")) = true) by reflexivity.
  assert (Ha : In ERROR log_level_values) by (do 9 right; left; reflexivity).
  assert (Hb : In FATAL log_level_values) by (do 11 right; left; reflexivity).
  split; [repeat split; assumption|].
  exact (proj1 (X5_one_file_per_watched_level
                  (fun _ => (0, 16877)) "/var/log/icpt" ERROR FATAL
                  Hok Ha Hb)).
Defined.

(** ** The timestamp *)

Lemma length_substring (s : string) (n m : nat) :
  (n + m <= String.length s)%nat -> String.length (substring n m s) = m.
Proof.
  revert n m.
  induction s as [|ch s IH]; intros n m H; cbn in H.
  - assert (n = O) by lia. assert (m = O) by lia. subst. reflexivity.
  - destruct n as [|n]; cbn.
    + destruct m as [|m]; [reflexivity|].
      cbn. rewrite IH by lia. reflexivity.
    + apply IH. lia.
Qed.

Lemma substring_append_skip (a b : string) (n m : nat) :
  substring (String.length a + n) m (a ++ b) = substring n m b.
Proof.
  induction a as [|ch a IH]; cbn; [reflexivity | exact IH].
Qed.

Lemma substring_append_prefix (a b : string) :
  substring 0 (String.length a) (a ++ b) = a.
Proof.
  induction a as [|ch a IH]; cbn.
  - destruct b; reflexivity.
  - now rewrite IH.
Qed.

Lemma length_fmt_03d (ms : Z) :
  0 <= ms < 1000 -> String.length (fmt_03d ms) = 3%nat.
Proof.
  intros H.
  assert (E : forallb (fun n => (String.length (fmt_03d (Z.of_nat n)) =? 3)%nat)
                      (seq 0 1000) = true) by (vm_compute; reflexivity).
  rewrite forallb_forall in E.
  specialize (E (Z.to_nat ms)).
  rewrite Z2Nat.id in E by lia.
  apply Nat.eqb_eq, E, in_seq. lia.
Qed.

(** X6: when the clock gives between 0 and 999999 microseconds and the
    host's time text has the usual 23 characters or more, the timestamp has
    the length of that text, agrees with it on the first 19 characters and
    from character 23 on, and holds at characters 19 to 22 a dot and the
    three digits of the milliseconds. *)
Theorem X6_milliseconds_pasted_in_place (h : Host) (tv_sec tv_usec : Z) :
  0 <= tv_usec < 1000000 ->
  (23 <= String.length (pg_strftime h tv_sec))%nat ->
  let formatted := pg_strftime h tv_sec in
  let stamp := format_timeval h (tv_sec, tv_usec) in
  let rest := (String.length formatted - 23)%nat in
  String.length stamp = String.length formatted /\
  substring 0 19 stamp = substring 0 19 formatted /\
  substring 19 4 stamp = String "."%char (fmt_03d (tv_usec / 1000)) /\
  String.length (fmt_03d (tv_usec / 1000)) = 3%nat /\
  substring 23 rest stamp = substring 23 rest formatted.
Proof.
  intros Husec Hlen formatted stamp rest.
  assert (Hms : 0 <= tv_usec / 1000 < 1000).
  { split; [apply Z.div_pos; lia | apply Z.div_lt_upper_bound; lia]. }
  pose proof (length_fmt_03d _ Hms) as L3.
  assert (Estamp : stamp =
            substring 0 19 formatted ++
            String "."%char (fmt_03d (tv_usec / 1000)) ++
            substring 23 rest formatted).
  { unfold stamp, format_timeval, paste_milliseconds. cbn [fst snd].
    fold formatted.
    destruct (Nat.ltb_spec (String.length formatted) 19);
      [unfold formatted in *; lia|].
    rewrite Z.quot_div_nonneg by lia.
    f_equal. f_equal.
    apply substring_all. cbn [String.length]. rewrite L3. lia. }
  assert (La : String.length (substring 0 19 formatted) = 19%nat)
    by (apply length_substring; unfold formatted; lia).
  assert (Lm : String.length (String "."%char (fmt_03d (tv_usec / 1000)))
               = 4%nat)
    by (cbn [String.length]; now rewrite L3).
  assert (Lc : String.length (substring 23 rest formatted) = rest)
    by (apply length_substring; unfold rest, formatted; lia).
  split.
  { rewrite Estamp, !length_append, La, Lm, Lc. unfold rest, formatted. lia. }
  split.
  { rewrite Estamp. rewrite <- La at 1. apply substring_append_prefix. }
  split.
  { rewrite Estamp.
    replace 19%nat with (String.length (substring 0 19 formatted) + 0)%nat
      at 1 by lia.
    rewrite substring_append_skip. rewrite <- Lm at 1.
    apply substring_append_prefix. }
  split; [exact L3|].
  rewrite Estamp.
  replace 23%nat with (String.length (substring 0 19 formatted) + 4)%nat
    at 1 by lia.
  rewrite substring_append_skip.
  replace 4%nat
    with (String.length (String "."%char (fmt_03d (tv_usec / 1000))) + 0)%nat
    at 1 by lia.
  rewrite substring_append_skip.
  apply substring_all. lia.
Qed.

Lemma X6_witness_sample_clock :
  (0 <= 123456 < 1000000 /\
   (23 <= String.length (pg_strftime Sample.host 1666000000))%nat) /\
  substring 19 4 (format_timeval Sample.host (1666000000, 123456)) = ".123".
Proof.
  assert (H1 : 0 <= 123456 < 1000000) by lia.
  assert (H2 : (23 <= String.length (pg_strftime Sample.host 1666000000))%nat)
    by (cbn; lia).
  split; [split; assumption|].
  exact (proj1 (proj2 (proj2 (X6_milliseconds_pasted_in_place
                                Sample.host 1666000000 123456 H1 H2)))).
Defined.

(** ** The order of the sections *)

Lemma field_section_group (k : section_kind) (label : string)
    (text : option string) :
  group_of k (field_section k label text).
Proof.
  destruct text as [t|]; [right; eexists; reflexivity | now left].
Qed.

Lemma detail_sections_group (edata : ErrorData) :
  group_of SecDetail (detail_sections edata).
Proof.
  unfold detail_sections.
  destruct (detail_log edata); apply field_section_group.
Qed.

Lemma context_sections_group (edata : ErrorData) :
  group_of SecContext (context_sections edata).
Proof.
  unfold context_sections.
  destruct (hide_ctx edata); [now left | apply field_section_group].
Qed.

Lemma location_sections_group (edata : ErrorData) :
  group_of SecLocation (location_sections edata).
Proof.
  unfold location_sections.
  destruct (filename edata), (funcname edata);
    solve [now left | right; eexists; reflexivity].
Qed.

(** X7: the block is the rendering of the sections of the record, and these
    come in the fixed order message, detail, hint, query, context, location,
    backtrace, statement, each kind at most once; the message section is
    always there and always first, so a block has between one and eight
    sections. *)
Theorem X7_sections_in_source_order (h : Host) (edata : ErrorData)
    (w : World) :
  build_block h edata w =
    (Returned (render h (clock_reads w) (sections h edata)),
     advance_clock (List.length (sections h edata)) w) /\
  StronglySorted lt (map (fun s => kind_index (sec_kind s))
                         (sections h edata)) /\
  hd_error (map sec_kind (sections h edata)) = Some SecMessage /\
  (1 <= List.length (sections h edata) <= 8)%nat.
Proof.
  split; [apply build_block_sections|].
  unfold sections, message_section.
  destruct (detail_sections_group edata) as [-> | [t1 ->]];
  destruct (field_section_group SecHint "HINT:  " (hint edata))
    as [-> | [t2 ->]];
  destruct (field_section_group SecQuery "QUERY:  " (internalquery edata))
    as [-> | [t3 ->]];
  destruct (context_sections_group edata) as [-> | [t4 ->]];
  destruct (location_sections_group edata) as [-> | [t5 ->]];
  destruct (field_section_group SecBacktrace "BACKTRACE:  "
              (backtrace edata)) as [-> | [t6 ->]];
  destruct (field_section_group SecStatement "STATEMENT:  "
              (debug_query_string h)) as [-> | [t7 ->]];
  simpl;
  (split; [repeat constructor; lia | split; [reflexivity | lia]]).
Qed.

(** ** Logical lines *)

Lemma count_newlines_append (a b : string) :
  count_newlines (a ++ b) = (count_newlines a + count_newlines b)%nat.
Proof.
  induction a as [|ch a IH]; cbn; [reflexivity|].
  destruct (Ascii.eqb ch newline); rewrite IH; reflexivity.
Qed.

Lemma count_newlines_substring (s : string) (n m : nat) :
  count_newlines s = O -> count_newlines (substring n m s) = O.
Proof.
  revert n m.
  induction s as [|ch s IH]; intros n m H.
  - destruct n, m; reflexivity.
  - cbn in H. destruct (Ascii.eqb ch newline) eqn:E; [discriminate|].
    destruct n as [|n]; cbn.
    + destruct m as [|m]; [reflexivity|]. cbn. rewrite E. now apply IH.
    + now apply IH.
Qed.

Lemma count_newlines_uint (u : Decimal.uint) :
  count_newlines (NilEmpty.string_of_uint u) = O.
Proof.
  induction u; cbn; assumption || reflexivity.
Qed.

Lemma count_newlines_fmt_d (z : Z) : count_newlines (fmt_d z) = O.
Proof.
  unfold fmt_d, NilZero.string_of_int, NilZero.string_of_uint.
  destruct (Z.to_int z) as [u|u]; destruct u; cbn;
    try reflexivity; apply count_newlines_uint.
Qed.

Lemma count_newlines_zeros (n : nat) : count_newlines (zeros n) = O.
Proof.
  induction n; cbn; [reflexivity | assumption].
Qed.

Lemma count_newlines_fmt_03d (z : Z) : count_newlines (fmt_03d z) = O.
Proof.
  unfold fmt_03d, zero_pad.
  destruct (z <? 0); cbn;
    now rewrite count_newlines_append, count_newlines_zeros,
      count_newlines_fmt_d.
Qed.

Lemma count_newlines_label (lvl : Z) :
  count_newlines (intercept_log_severity lvl) = O.
Proof.
  pose proof (intercept_log_severity_cases lvl) as H.
  unfold severity_labels in H. cbn [In] in H.
  repeat (destruct H as [<-|H]; [reflexivity|]). destruct H.
Qed.

Lemma no_line_end_plain (s : string) :
  count_newlines s = O -> no_line_end s.
Proof.
  intros H b.
  induction s as [|ch s IH]; cbn; [reflexivity|].
  cbn in H. destruct (Ascii.eqb ch newline); [discriminate | auto].
Qed.

Lemma no_line_end_escape (t : string) : no_line_end (spec_escape t).
Proof.
  intros b.
  induction t as [|ch t IH]; cbn; [reflexivity|].
  destruct (Ascii.eqb ch newline) eqn:E; cbn; rewrite E; [|exact IH].
  exact IH.
Qed.

Lemma no_line_end_append (a b : string) :
  no_line_end a -> no_line_end b -> no_line_end (a ++ b).
Proof.
  intros Ha Hb c. now rewrite append_assoc, Ha, Hb.
Qed.

Lemma bare_newlines_LF (b : string) :
  starts_with_tab b = false -> bare_newlines (LF ++ b) = S (bare_newlines b).
Proof.
  destruct b as [|ch b]; cbn; [reflexivity|].
  intros ->. reflexivity.
Qed.

Lemma starts_with_tab_append (a b : string) :
  starts_with_tab (a ++ b) =
  match a with
  | EmptyString => starts_with_tab b
  | String _ _ => starts_with_tab a
  end.
Proof. destruct a; reflexivity. Qed.

Lemma starts_with_tab_substring (s : string) (m : nat) :
  starts_with_tab s = false -> starts_with_tab (substring 0 m s) = false.
Proof.
  destruct s as [|ch s], m as [|m]; cbn; auto.
Qed.

Section LogicalLines.

Variable h : Host.
Hypothesis time_text_has_no_newline :
  forall t, count_newlines (pg_strftime h t) = O.
Hypothesis time_text_starts_without_tab :
  forall t, starts_with_tab (pg_strftime h t) = false.

Lemma count_newlines_format_timeval (tv : Z * Z) :
  count_newlines (format_timeval h tv) = O.
Proof.
  unfold format_timeval, paste_milliseconds.
  destruct (String.length (pg_strftime h (fst tv)) <? 19)%nat;
    [apply time_text_has_no_newline|].
  rewrite !count_newlines_append.
  rewrite !count_newlines_substring; try reflexivity;
    try apply time_text_has_no_newline.
  cbn. apply count_newlines_fmt_03d.
Qed.

Lemma starts_with_tab_format_timeval (tv : Z * Z) :
  starts_with_tab (format_timeval h tv) = false.
Proof.
  unfold format_timeval, paste_milliseconds.
  destruct (Nat.ltb_spec (String.length (pg_strftime h (fst tv))) 19)
    as [Hlt|Hge]; [apply time_text_starts_without_tab|].
  pose proof (time_text_starts_without_tab (fst tv)) as Ht.
  destruct (pg_strftime h (fst tv)) as [|ch s]; [cbn in Hge; lia|].
  cbn in Ht |- *. exact Ht.
Qed.

Lemma no_line_end_prefix (k : nat) : no_line_end (prefix_at h k).
Proof.
  apply no_line_end_plain. unfold prefix_at.
  rewrite !count_newlines_append, count_newlines_format_timeval,
    count_newlines_fmt_d. reflexivity.
Qed.

Lemma starts_with_tab_prefix (k : nat) :
  starts_with_tab (prefix_at h k) = false.
Proof.
  unfold prefix_at. rewrite starts_with_tab_append.
  pose proof (starts_with_tab_format_timeval (gettimeofday h k)) as Ht.
  destruct (format_timeval h (gettimeofday h k)); [reflexivity | exact Ht].
Qed.

Lemma starts_with_tab_render (k : nat) (secs : list section) :
  starts_with_tab (render h k secs) = false.
Proof.
  destruct secs as [|s secs]; [reflexivity|].
  cbn [render]. rewrite starts_with_tab_append.
  pose proof (starts_with_tab_prefix k) as Hp.
  destruct (prefix_at h k) eqn:E; [|exact Hp].
  unfold prefix_at in E.
  destruct (format_timeval h (gettimeofday h k)); discriminate E.
Qed.

(** A block has as many ends of logical lines as sections when no section
    text brings one of its own. *)
Lemma bare_newlines_render (k : nat) (secs : list section) :
  Forall (fun s => no_line_end (sec_text s)) secs ->
  bare_newlines (render h k secs) = List.length secs.
Proof.
  revert k.
  induction secs as [|s secs IH]; intros k Hall; [reflexivity|].
  inversion Hall as [|? ? Hs Hrest]; subst.
  cbn [render List.length].
  rewrite (no_line_end_prefix k), Hs, bare_newlines_LF
    by apply starts_with_tab_render.
  now rewrite IH.
Qed.

Lemma no_line_end_field (k : section_kind) (label : string)
    (text : option string) :
  count_newlines label = O ->
  Forall (fun s => no_line_end (sec_text s)) (field_section k label text).
Proof.
  intros Hl. destruct text as [t|]; constructor; [|constructor].
  cbn [sec_text]. apply no_line_end_append;
    [now apply no_line_end_plain | apply no_line_end_escape].
Qed.

End LogicalLines.

Lemma count_newlines_position_suffix (cursor internal : Z) :
  count_newlines (position_suffix cursor internal) = O.
Proof.
  unfold position_suffix.
  destruct (0 <? cursor); [|destruct (0 <? internal); [|reflexivity]];
    now rewrite count_newlines_append, count_newlines_fmt_d.
Qed.

Lemma no_line_end_sections (h : Host) (edata : ErrorData) :
  count_newlines (unpack_sql_state h (sqlerrcode edata)) = O ->
  no_newline_opt (funcname edata) ->
  no_newline_opt (filename edata) ->
  Forall (fun s => no_line_end (sec_text s)) (sections h edata).
Proof.
  intros Hsql Hfn Hfile. unfold sections.
  constructor.
  { cbn [sec_text message_section].
    apply no_line_end_append; [|apply no_line_end_append].
    - apply no_line_end_plain. unfold message_head.
      rewrite !count_newlines_append, count_newlines_label.
      destruct (sqlerrcode edata =? 0); [reflexivity|].
      now rewrite count_newlines_append, Hsql.
    - apply no_line_end_escape.
    - apply no_line_end_plain, count_newlines_position_suffix. }
  repeat match goal with
         | |- Forall _ (_ ++ _)%list => apply Forall_app; split
         end.
  - unfold detail_sections.
    destruct (detail_log edata); now apply no_line_end_field.
  - now apply no_line_end_field.
  - now apply no_line_end_field.
  - unfold context_sections.
    destruct (hide_ctx edata); [constructor | now apply no_line_end_field].
  - unfold location_sections, no_newline_opt in *.
    destruct (filename edata) as [file|]; [|constructor].
    destruct (funcname edata) as [fn|]; constructor; try constructor;
      cbn [sec_text]; apply no_line_end_plain;
      rewrite !count_newlines_append, ?Hfn, Hfile, count_newlines_fmt_d;
      reflexivity.
  - now apply no_line_end_field.
  - now apply no_line_end_field.
Qed.

(** X8: when the host's time text and SQLSTATE text hold no newline, the
    time text does not begin with a tab, and the function and file names hold
    no newline (the assumption noted in the source), the block has exactly
    one newline that is not followed by a tab per section: whatever
    newlines the message, detail, hint, query, context, backtrace and
    statement hold, the logical lines of the block are its sections. *)
Theorem X8_one_logical_line_per_section (h : Host) (edata : ErrorData)
    (w : World) :
  (forall t, count_newlines (pg_strftime h t) = O) ->
  (forall t, starts_with_tab (pg_strftime h t) = false) ->
  count_newlines (unpack_sql_state h (sqlerrcode edata)) = O ->
  no_newline_opt (funcname edata) ->
  no_newline_opt (filename edata) ->
  exists block w',
    build_block h edata w = (Returned block, w') /\
    bare_newlines block = List.length (sections h edata).
Proof.
  intros Htime Htab Hsql Hfn Hfile.
  rewrite build_block_sections. do 2 eexists. split; [reflexivity|].
  apply bare_newlines_render; try assumption.
  now apply no_line_end_sections.
Qed.

Lemma X8_witness_two_sections :
  let edata :=
    mkErrorData ERROR 0 (Some ("syntax error" ++ LF ++ "near SELECT"))
      (Some ("line one" ++ LF ++ "line two")) None None None None false
      None 0 None 0 0 None 0 in
  ((forall t, count_newlines (pg_strftime Sample.host t) = O) /\
   (forall t, starts_with_tab (pg_strftime Sample.host t) = false) /\
   count_newlines (unpack_sql_state Sample.host (sqlerrcode edata)) = O /\
   no_newline_opt (funcname edata) /\ no_newline_opt (filename edata)) /\
  exists block w',
    build_block Sample.host edata Sample.world0 = (Returned block, w') /\
    bare_newlines block = 2%nat.
Proof.
  intros edata.
  assert (H1 : forall t, count_newlines (pg_strftime Sample.host t) = O)
    by (intros t; reflexivity).
  assert (H2 : forall t, starts_with_tab (pg_strftime Sample.host t) = false)
    by (intros t; reflexivity).
  assert (H3 : count_newlines
                 (unpack_sql_state Sample.host (sqlerrcode edata)) = O)
    by reflexivity.
  assert (H4 : no_newline_opt (funcname edata)) by exact I.
  assert (H5 : no_newline_opt (filename edata)) by exact I.
  split; [repeat split; assumption|].
  exact (X8_one_logical_line_per_section Sample.host edata Sample.world0
           H1 H2 H3 H4 H5).
Defined.

(** ** Escaping, continued *)

Lemma spec_escape_append (a b : string) :
  spec_escape (a ++ b) = spec_escape a ++ spec_escape b.
Proof.
  induction a as [|ch a IH]; cbn; [reflexivity|].
  destruct (Ascii.eqb ch newline); cbn; now rewrite IH.
Qed.

Lemma spec_escape_plain (s : string) :
  count_newlines s = O -> spec_escape s = s.
Proof.
  induction s as [|ch s IH]; cbn; [reflexivity|].
  destruct (Ascii.eqb ch newline); [discriminate|].
  intros H. now rewrite IH.
Qed.

(** X9: appending two texts one after the other with [append_with_tabs] is
    appending their concatenation; two different texts never give the same
    buffer; and a text without newline is appended as it is. *)
Theorem X9_append_with_tabs_composes (buf a b : string) :
  append_with_tabs (append_with_tabs buf a) b =
    append_with_tabs buf (a ++ b) /\
  (append_with_tabs buf a = append_with_tabs buf b -> a = b) /\
  (count_newlines a = O -> append_with_tabs buf a = buf ++ a).
Proof.
  rewrite !append_with_tabs_spec.
  split; [now rewrite spec_escape_append, append_assoc|].
  split.
  - intros E. apply append_inj_l in E.
    rewrite <- (spec_unescape_escape a), <- (spec_unescape_escape b).
    now rewrite E.
  - intros H. now rewrite spec_escape_plain.
Qed.

(** ** The hook and its destinations, continued *)



(** X11: [write_file] does not clear [errno] before [write]: when [open]
    succeeds and [write] comes back short, neither touching [errno], the
    report carries the [errno] that was there before the call, and ENOSPC
    only if that was zero. *)
Theorem X11_short_write_reports_earlier_errno (cfg : Config) (h : Host)
    (os : OS) (line : string) (len lvl : Z) (w : World) :
  let path := fullpath_of (log_directory cfg) lvl in
  let mode := pg_file_create_mode h in
  let o := sys_open os (trace w) path mode in
  let wr := sys_write os (trace w ++ [SysOpen path mode (ret_val o)])%list
                      (ret_val o) line len in
  0 <= ret_val o -> new_errno o = None ->
  ret_val wr <> len -> new_errno wr = None ->
  exists w',
    write_file cfg h os line len lvl w =
    (Raised (file_access_error h 450 "could not write intercept log file "
               path (if errno w =? 0 then ENOSPC else errno w)), w').
Proof.
  intros path mode o wr Hfd Hoe Hshort Hwe.
  assert (Ew : apply_errno o w = w) by (unfold apply_errno; now rewrite Hoe).
  pose proof (write_file_eq cfg h os line len lvl w) as E.
  cbv zeta in E. fold path mode in E. fold o in E.
  rewrite Ew, trace_record_effect in E. fold wr in E.
  unfold apply_errno in E. rewrite Hwe in E.
  cbn [errno record_effect] in E.
  destruct (Z.ltb_spec (ret_val o) 0); [lia|].
  destruct (Z.eqb_spec (ret_val wr) len); [contradiction|].
  rewrite E.
  destruct (errno w =? 0); eexists; reflexivity.
Qed.

Lemma X11_witness_stale_errno :
  let w := mkWorld false 13 0 [] in
  (0 <= 7 /\ @None Z = None /\ 3 <> 6 /\ @None Z = None) /\
  exists w',
    write_file (Sample.to_dir ERROR) Sample.host Sample.os_short
               "abcdef" 6 ERROR w =
    (Raised (file_access_error Sample.host 450
               "could not write intercept log file "
               "/var/log/icpt/ERROR.log" 13), w').
Proof.
  intros w.
  assert (H1 : 0 <= 7) by lia.
  assert (H2 : @None Z = None) by reflexivity.
  assert (H3 : 3 <> 6) by discriminate.
  split; [repeat split; assumption|].
  exact (X11_short_write_reports_earlier_errno (Sample.to_dir ERROR)
           Sample.host Sample.os_short "abcdef" 6 ERROR w H1 H2 H3 H2).
Defined.




(** X14: when the original hook has returned and the hook then leaves by a
    raised report, the hook formats and writes nothing more, whatever events
    follow (the report itself included) and whatever the settings and the
    operating system are then, as long as the original hook does not touch
    the flag: the flag stays set, and delivering the events to the hook does
    exactly what delivering them to the original hook alone does. *)
Theorem X14_nothing_intercepted_after_a_raise (cfg cfg' : Config)
    (h h' : Host) (os os' : OS) (edata raised : ErrorData)
    (events : list ErrorData) (w w0 w1 : World) :
  call_original_emit_log_hook cfg edata w = (Returned tt, w0) ->
  intercept_log cfg h os edata w = (Raised raised, w1) ->
  (forall e' w',
     in_intercept_log_hook (after_original_hook cfg' e' w') =
     in_intercept_log_hook w') ->
  fold_left (deliver cfg' h' os') events w1 =
    fold_left (deliver_to_original cfg') events w1 /\
  in_intercept_log_hook (fold_left (deliver cfg' h' os') events w1) = true.
Proof.
  intros Hhook E Hkeep.
  apply flag_set_is_permanent; [exact Hkeep|].
  exact (intercept_log_raise_leaves_flag_set _ _ _ _ _ _ _ _ Hhook E).
Qed.

Lemma X14_witness_after_failed_open :
  let cfg := Sample.to_dir ERROR in
  let cfg' := mkConfig ERROR "/var/log/icpt" (Some Sample.noting_hook) in
  let e1 := Sample.plain ERROR "disk full" in
  let e2 := file_access_error Sample.host 439
              "could not open intercept log file "
              "/var/log/icpt/ERROR.log" 2 in
  let w1 := mkWorld true 2 1 [SysOpen "/var/log/icpt/ERROR.log" 384 (-1)] in
  (call_original_emit_log_hook cfg e1 Sample.world0 =
     (Returned tt, Sample.world0) /\
   intercept_log cfg Sample.host Sample.os_no_dir e1 Sample.world0 =
     (Raised e2, w1) /\
   (forall e' w',
      in_intercept_log_hook (after_original_hook cfg' e' w') =
      in_intercept_log_hook w')) /\
  trace (fold_left (deliver cfg' Sample.host Sample.os_ok) [e2; e1; e1] w1) =
  [SysOpen "/var/log/icpt/ERROR.log" 384 (-1);
   CallOriginalHook e2; CallOriginalHook e1; CallOriginalHook e1].
Proof.
  intros cfg cfg' e1 e2 w1.
  assert (H0 : call_original_emit_log_hook cfg e1 Sample.world0 =
               (Returned tt, Sample.world0)) by reflexivity.
  assert (E : intercept_log cfg Sample.host Sample.os_no_dir e1
                Sample.world0 = (Raised e2, w1)) by reflexivity.
  assert (K : forall e' w',
            in_intercept_log_hook (after_original_hook cfg' e' w') =
            in_intercept_log_hook w') by (intros e' w'; reflexivity).
  split; [repeat split; assumption|].
  rewrite (proj1 (X14_nothing_intercepted_after_a_raise cfg cfg'
                    Sample.host Sample.host Sample.os_no_dir Sample.os_ok
                    e1 e2 [e2; e1; e1] Sample.world0 Sample.world0 w1
                    H0 E K)).
  reflexivity.
Defined.

(** X15: under a non-empty directory setting, when the hook returns from an
    event that passed the gate, [open] gave a descriptor that is not
    negative and the one [write] on it was asked for the whole block and
    answered its full length. *)
Theorem X15_return_means_whole_block_written (cfg : Config) (h : Host)
    (os : OS) (edata : ErrorData) (w w' : World) :
  log_directory cfg <> EmptyString ->
  shouldProcess edata cfg
    (in_intercept_log_hook (after_original_hook cfg edata w)) = true ->
  intercept_log cfg h os edata w = (Returned tt, w') ->
  let w0 := after_original_hook cfg edata w in
  let block := render h (clock_reads w0) (sections h edata) in
  let len := Z.of_nat (String.length block) in
  let path := fullpath_of (log_directory cfg) (elevel edata) in
  exists fd,
    0 <= fd /\
    trace w' = (trace w0 ++ [SysOpen path (pg_file_create_mode h) fd;
                             SysWrite fd block len len])%list /\
    in_intercept_log_hook w' = false.
Proof.
  unfold after_original_hook.
  intros Hdir Hgate E. rewrite intercept_log_eq in E.
  destruct (call_original_emit_log_hook cfg edata w) as [[[]|raised] w0];
    [|discriminate E].
  cbn [snd] in *. cbv zeta.
  set (block := render h (clock_reads w0) (sections h edata)).
  set (len := Z.of_nat (String.length block)).
  set (path := fullpath_of (log_directory cfg) (elevel edata)).
  rewrite Hgate in E.
  unfold process in E. rewrite prepare_and_emit_eq in E. cbv zeta in E.
  destruct (String.eqb_spec (log_directory cfg) EmptyString) as [Hd|_];
    [contradiction|].
  rewrite write_file_eq in E. cbv zeta in E.
  cbn [clock_reads set_flag] in E.
  fold block in E. fold len in E. fold path in E.
  set (wb := advance_clock _ (set_flag true w0)) in E.
  assert (Ht : trace wb = trace w0) by reflexivity.
  set (o := sys_open os (trace wb) path (pg_file_create_mode h)) in E.
  set (w1 := record_effect _ (apply_errno o wb)) in E.
  set (wr := sys_write os (trace w1) (ret_val o) block len) in E.
  destruct (Z.ltb_spec (ret_val o) 0) as [|Hfd]; [discriminate E|].
  destruct (Z.eqb_spec (ret_val wr) len) as [Hrc|]; [|discriminate E].
  injection E as <-.
  exists (ret_val o). split; [exact Hfd|]. split; [|reflexivity].
  cbn [trace set_flag]. rewrite trace_record_effect, trace_apply_errno.
  unfold w1. rewrite trace_record_effect, trace_apply_errno, Ht, Hrc.
  now rewrite <- app_assoc.
Qed.

Lemma X15_witness_written :
  let block := "2022-10-17 09:46:40.123 UTC [4242] ERROR:  disk full" ++ LF in
  (log_directory (Sample.to_dir ERROR) <> EmptyString /\
   shouldProcess (Sample.plain ERROR "disk full") (Sample.to_dir ERROR)
                 (in_intercept_log_hook Sample.world0) = true /\
   intercept_log (Sample.to_dir ERROR) Sample.host Sample.os_ok
                 (Sample.plain ERROR "disk full") Sample.world0 =
     (Returned tt,
      mkWorld false 0 1 [SysOpen "/var/log/icpt/ERROR.log" 384 7;
                         SysWrite 7 block 53 53])) /\
  exists fd,
    0 <= fd /\
    [SysOpen "/var/log/icpt/ERROR.log" 384 7; SysWrite 7 block 53 53] =
    ([] ++ [SysOpen "/var/log/icpt/ERROR.log" 384 fd;
            SysWrite fd block 53 53])%list /\
    false = false.
Proof.
  intros block.
  assert (H1 : log_directory (Sample.to_dir ERROR) <> EmptyString)
    by discriminate.
  assert (H2 : shouldProcess (Sample.plain ERROR "disk full")
                 (Sample.to_dir ERROR)
                 (in_intercept_log_hook Sample.world0) = true)
    by reflexivity.
  assert (H3 : intercept_log (Sample.to_dir ERROR) Sample.host Sample.os_ok
                 (Sample.plain ERROR "disk full") Sample.world0 =
               (Returned tt,
                mkWorld false 0 1 [SysOpen "/var/log/icpt/ERROR.log" 384 7;
                                   SysWrite 7 block 53 53]))
    by reflexivity.
  split; [repeat split; assumption|].
  exact (X15_return_means_whole_block_written (Sample.to_dir ERROR)
           Sample.host Sample.os_ok (Sample.plain ERROR "disk full")
           Sample.world0 _ H1 H2 H3).
Defined.

(** ** Loading and unloading *)

(** X16: [_PG_fini] puts back the hook that [_PG_init] found, so unloading
    right after loading restores the host's pointer; it does so whatever is
    installed at that time, so a hook another module installed in between
    is unlinked with this one; and a second [_PG_init] makes the module its
    own original hook. *)
Theorem X16_unload_restores_saved_hook (s : Hooks.slots) (id : nat) :
  Hooks.emit_log_hook (Hooks._PG_fini (Hooks._PG_init s)) =
    Hooks.emit_log_hook s /\
  Hooks.emit_log_hook
    (Hooks._PG_fini (Hooks.install_other id (Hooks._PG_init s))) =
    Hooks.emit_log_hook s /\
  Hooks.original_emit_log_hook (Hooks._PG_init (Hooks._PG_init s)) =
    Some Hooks.intercept_log_hook.
Proof. repeat split. Qed.

(** ** The comparison and the labels, continued *)

(** X17: [is_log_level_output] behaves as an order on the levels a server
    minimum can take: every level but WARNING_CLIENT_ONLY is output at
    itself as the minimum, so the check hook accepts a watched level equal
    to the server's minimum; and if [a] is output at minimum [b] and [b] at
    minimum [c], neither minimum being LOG_SERVER_ONLY, then [a] is output
    at minimum [c]. *)
Theorem X17_output_reflexive_and_transitive (a b c : Z) :
  (a <> WARNING_CLIENT_ONLY ->
   is_log_level_output a a = true /\
   check_intercept_log_level a a = true) /\
  (b <> LOG_SERVER_ONLY -> c <> LOG_SERVER_ONLY ->
   is_log_level_output a b = true ->
   is_log_level_output b c = true ->
   is_log_level_output a c = true).
Proof.
  split.
  - intros Ha.
    assert (R : is_log_level_output a a = true).
    { unfold is_log_level_output, LOG, LOG_SERVER_ONLY, WARNING_CLIENT_ONLY,
        ERROR, FATAL in *.
      destruct (Z.eqb_spec a 15), (Z.eqb_spec a 16), (Z.eqb_spec a 20);
        subst; cbn; try reflexivity; try lia.
      now rewrite Z.geb_leb, Z.leb_refl. }
    split; [exact R|].
    unfold check_intercept_log_level. rewrite R.
    destruct (a =? LOG_LEVEL_NONE); reflexivity.
  - intros Hb Hc Hab Hbc.
    destruct (Z.eq_dec a WARNING_CLIENT_ONLY) as [->|Ha];
      [cbn in Hab; discriminate|].
    destruct (Z.eq_dec b WARNING_CLIENT_ONLY) as [->|Hb'];
      [cbn in Hbc; discriminate|].
    rewrite is_log_level_output_rank in * by assumption.
    apply Z.leb_le in Hab, Hbc. apply Z.leb_le. lia.
Qed.

Lemma level_in_range (a : Z) :
  DEBUG5 <= a <= PANIC ->
  In a [10; 11; 12; 13; 14; 15; 16; 17; 18; 19; 20; 21; 22; 23].
Proof.
  unfold DEBUG5, PANIC. cbn [In]. lia.
Qed.

(** X18: [intercept_log_severity] gives "???" exactly for the numbers outside
    the range DEBUG5 to PANIC; inside the range two levels have the same
    label only if they are equal, or are LOG and LOG_SERVER_ONLY, or are
    WARNING and WARNING_CLIENT_ONLY: every debug level has a label of its
    own. *)
Theorem X18_labels_of_the_levels (a b : Z) :
  (intercept_log_severity a = "???" <-> (a < DEBUG5 \/ PANIC < a)) /\
  (DEBUG5 <= a <= PANIC -> DEBUG5 <= b <= PANIC ->
   intercept_log_severity a = intercept_log_severity b ->
   a = b \/
   ((a = LOG \/ a = LOG_SERVER_ONLY) /\ (b = LOG \/ b = LOG_SERVER_ONLY)) \/
   ((a = WARNING \/ a = WARNING_CLIENT_ONLY) /\
    (b = WARNING \/ b = WARNING_CLIENT_ONLY))).
Proof.
  split.
  - split.
    + intros E.
      destruct (Z.lt_ge_cases a DEBUG5) as [|Hlo]; [now left|].
      destruct (Z.lt_ge_cases PANIC a) as [|Hhi]; [now right|].
      exfalso. assert (Hr : DEBUG5 <= a <= PANIC) by lia.
      apply level_in_range in Hr. cbn [In] in Hr.
      repeat (destruct Hr as [<-|Hr]; [discriminate E|]). exact Hr.
    + unfold DEBUG5, PANIC. intros Hout.
      unfold intercept_log_severity, DEBUG1, DEBUG2, DEBUG3, DEBUG4, DEBUG5,
        LOG, LOG_SERVER_ONLY, INFO, NOTICE, WARNING, WARNING_CLIENT_ONLY,
        ERROR, FATAL, PANIC.
      repeat match goal with
             | |- context [ (a =? ?k)%Z ] =>
                 destruct (Z.eqb_spec a k); [lia|]
             end.
      reflexivity.
  - intros Ha Hb.
    apply level_in_range in Ha, Hb. cbn [In] in Ha, Hb.
    unfold LOG, LOG_SERVER_ONLY, WARNING, WARNING_CLIENT_ONLY.
    repeat (destruct Ha as [<-|Ha]; [|]); try (destruct Ha);
      repeat (destruct Hb as [<-|Hb]; [|]); try (destruct Hb);
      cbn; intros E; try discriminate E; lia.
Qed.
